(** * Bond fan entities: percentage/step conversion, state projection
      and action dispatch of [homeassistant/components/bond/fan.py]. *)

From Stdlib Require Import ZArith QArith Qround Lia List.
From stdpp Require Import gmap strings list sorting pretty.

Local Open Scope Z_scope.

(** ** Python values, exceptions and results *)

(** The exceptions that the entity code raises, catches or lets through. *)
Inductive exn : Type :=
  | ClientResponseError (code : Z) (message : string)
  | HomeAssistantError (msg : string)
  | ValueError (msg : string)
  | IndexError
  | TypeError
  | ZeroDivisionError.

Inductive result (A : Type) : Type :=
  | Ok (a : A)
  | Raise (e : exn).
Arguments Ok {A} a.
Arguments Raise {A} e.

Definition rbind {A B} (r : result A) (k : A → result B) : result B :=
  match r with
  | Ok a => k a
  | Raise e => Raise e
  end.

(** JSON values found in a device state dictionary.  [state.get(key)] on a
    key that is absent is Python's [None], which is [None : option value]. *)
Inductive value : Type :=
  | VBool (b : bool)
  | VInt (z : Z)
  | VList (l : list Z).

(** Python truthiness, as used by [not x] and [if x]. *)
Definition truthy (v : option value) : bool :=
  match v with
  | None => false
  | Some (VBool b) => b
  | Some (VInt z) => negb (z =? 0)
  | Some (VList l) => negb (bool_decide (l = []))
  end.

(** The integer a value stands for in arithmetic ([bool] is a subclass
    of [int]); a list in an arithmetic position raises [TypeError]. *)
Definition as_int (v : value) : result Z :=
  match v with
  | VBool b => Ok (Z.b2z b)
  | VInt z => Ok z
  | VList _ => Raise TypeError
  end.

(** [v == z] for a state value [v] and an integer [z]. *)
Definition py_eq_int (v : value) (z : Z) : bool :=
  match v with
  | VBool b => Z.b2z b =? z
  | VInt x => x =? z
  | VList _ => false
  end.

(** [l[i]] with Python's negative indices. *)
Definition py_getitem {A} (l : list A) (i : Z) : result A :=
  let n := Z.of_nat (length l) in
  let j := if i <? 0 then i + n else i in
  if (0 <=? j) && (j <? n) then
    match l !! Z.to_nat j with
    | Some x => Ok x
    | None => Raise IndexError
    end
  else Raise IndexError.

(** [l.index(v)]: position of the first element equal to [v]. *)
Fixpoint list_index_from (l : list Z) (v : value) (i : Z) : result Z :=
  match l with
  | [] => Raise (ValueError "value is not in list")
  | x :: l' => if py_eq_int v x then Ok i else list_index_from l' v (i + 1)
  end.

Definition list_index (l : list Z) (v : value) : result Z :=
  list_index_from l v 0.

(** [sorted(l)] on integers. *)
Definition sorted (l : list Z) : list Z := merge_sort Z.le l.

(** [math.ceil] and, for comparison, [math.floor]. *)
Definition math_ceil (x : Q) : Z := Qceiling x.
Definition math_floor (x : Q) : Z := Qfloor x.

(** ** [homeassistant.util.percentage] *)

Module percentage.

(** Modelled from the spec: [homeassistant/util/percentage.py] is not
    among the sources.  The number of states of a range is
    [high - low + 1]. *)
Definition states_in_range (low_high_range : Z * Z) : Z :=
  snd low_high_range - fst low_high_range + 1.

(** Modelled from the spec: the reported step granularity, the number of
    integers in the range, [high - low + 1] when [low <= high], else 0. *)
Definition int_states_in_range (low_high_range : Z * Z) : Z :=
  if fst low_high_range <=? snd low_high_range
  then states_in_range low_high_range
  else 0.

(** Modelled from the spec: the percentage mapped linearly onto the
    range, [states * percentage / 100 + (low - 1)], before any rounding.
    Python evaluates this in floating point; the value is kept exact
    here, as a rational, which has the same ceiling and floor as long as
    [states * percentage] stays far below [2^53]. *)
Definition percentage_to_ranged_value
    (low_high_range : Z * Z) (percentage : Z) : Q :=
  let offset := fst low_high_range - 1 in
  (inject_Z (states_in_range low_high_range * percentage) / inject_Z 100
   + inject_Z offset)%Q.

(** Modelled from the spec: the inverse mapping from a step to an integer
    percentage, [((value - (low - 1)) * 100) // states], rounded down.
    A range without states has nothing to divide by. *)
Definition ranged_value_to_percentage
    (low_high_range : Z * Z) (value : Z) : result Z :=
  let offset := fst low_high_range - 1 in
  let states := states_in_range low_high_range in
  if states =? 0 then Raise ZeroDivisionError
  else Ok (((value - offset) * 100) / states).

End percentage.
Import percentage.

(** The step that the ceiling of the linear mapping selects: the expression
    [math.ceil(percentage_to_ranged_value(self._speed_range, percentage))]
    of [BondFan.async_set_percentage], [BondFan.async_set_speed_belief] and
    [BondFireplaceFan._to_bond_percentage]. *)
Definition percentage_to_step (speed_range : Z * Z) (percentage : Z) : Z :=
  math_ceil (percentage_to_ranged_value speed_range percentage).

(** The step floor-rounding of the same mapping would select. *)
Definition percentage_to_step_floor (speed_range : Z * Z) (percentage : Z) : Z :=
  math_floor (percentage_to_ranged_value speed_range percentage).

(** ** The Bond hub and its actions ([bond_async]) *)

Module Action.

(** Action identifiers of the Bond API used by the fan entities. *)
Inductive name : Type :=
  | TURN_ON | TURN_OFF | SET_SPEED | SET_DIRECTION
  | BREEZE_ON | BREEZE_OFF | SET_STATE_BELIEF
  | SET_FP_FAN | TURN_FP_FAN_ON | TURN_FP_FAN_OFF.

(** The argument of an action: nothing, a number, a dict [{key: value}]
    or a set literal [{a, b}] of strings and integers. *)
Inductive argument : Type :=
  | ArgNone
  | ArgInt (z : Z)
  | ArgDict (d : gmap string Z)
  | ArgSet (s : gset (string + Z)).

(** An action is built either by one of the library's factory methods
    ([Action.turn_off()], [Action.set_speed(n)], ...), kept abstract
    here, or directly as [Action(name, argument)]. *)
Inductive t : Type :=
  | turn_on
  | turn_off
  | set_speed (speed : Z)
  | set_direction (direction : Z)
  | set_power_state_belief (power_state : bool)
  | set_speed_belief (speed : Z)
  | Action (n : name) (arg : argument).

Global Instance name_eq_dec : EqDecision name.
Proof. solve_decision. Defined.

End Action.

(** One call [self._hub.bond.action(device_id, action)]. *)
Definition call : Type := string * Action.t.

(** The hub, seen from the entity: given the calls made so far and the
    next call, it either completes ([None]) or fails with a transport
    error carrying a status code and a message. *)
Definition Bond : Type := list call → call → option (Z * string).

(** A hub that completes every call. *)
Definition bond_ok : Bond := λ _ _, None.

(** Coroutines of the entities: they read the hub, append to the log of
    calls made, and return or raise. *)
Definition M (A : Type) : Type := Bond → list call → result A * list call.

Definition ret {A} (a : A) : M A := λ _ log, (Ok a, log).
Definition raise {A} (e : exn) : M A := λ _ log, (Raise e, log).
Definition bind {A B} (m : M A) (k : A → M B) : M B :=
  λ bond log,
    match m bond log with
    | (Ok a, log') => k a bond log'
    | (Raise e, log') => (Raise e, log')
    end.
Definition lift {A} (r : result A) : M A := λ _ log, (r, log).

Global Instance M_ret : MRet M := @ret.
Global Instance M_bind : MBind M := λ A B k m, bind m k.

(** [await self._hub.bond.action(device_id, action)]. *)
Definition bond_action (device_id : string) (action : Action.t) : M unit :=
  λ bond log,
    let c := (device_id, action) in
    match bond log c with
    | None => (Ok tt, log ++ [c])
    | Some (code, message) => (Raise (ClientResponseError code message), log ++ [c])
    end.

(** [try: body except ClientResponseError as ex: handler(ex)]. *)
Definition try_except_ClientResponseError {A}
    (body : M A) (handler : Z → string → M A) : M A :=
  λ bond log,
    match body bond log with
    | (Raise (ClientResponseError code message), log') =>
        handler code message bond log'
    | r => r
    end.

(** The calls a coroutine makes, and its outcome, from an empty log. *)
Definition calls_of {A} (m : M A) (bond : Bond) : list call := snd (m bond []).
Definition outcome_of {A} (m : M A) (bond : Bond) : result A := fst (m bond []).

(** ** Devices ([BondDevice] of [utils.py]) *)

(** A supported command of a device: its action and its argument. *)
Record command : Type := {
  cmd_action : Action.name;
  cmd_argument : Z
}.

Record BondDevice : Type := {
  device_id : string;
  props : gmap string Z;
  state : gmap string value;
  actions : list Action.name;
  commands : list command
}.

(** Modelled from the spec: [utils.py] is not among the sources.  The
    capability descriptor holds the set of supported action identifiers. *)
Definition has_action (device : BondDevice) (action : Action.name) : bool :=
  bool_decide (action ∈ actions device).

(** Modelled from the spec: [utils.py] is not among the sources.  The
    supported-command enumeration filtered by action kind. *)
Definition find_commands (device : BondDevice) (action : Action.name)
    : list command :=
  filter (λ cmd, cmd_action cmd = action) (commands device).

Definition with_state (device : BondDevice) (st : gmap string value) : BondDevice :=
  {| device_id := device_id device; props := props device; state := st;
     actions := actions device; commands := commands device |}.

Definition PRESET_MODE_BREEZE : string := "Breeze".

(** The vendor library's direction values ([bond_async.Direction]). *)
Module Direction.
Definition FORWARD : Z := 1.
Definition REVERSE : Z := -1.
End Direction.

(** Modelled from the spec: [homeassistant/components/fan] is not among the
    sources.  The platform's direction tokens; the explicit token for
    reverse is ["reverse"]. *)
Definition DIRECTION_FORWARD : string := "forward".
Definition DIRECTION_REVERSE : string := "reverse".

(** ** [class BondFan] *)

Module BondFan.

Record t : Type := {
  _device : BondDevice;
  entity_id : string;
  _power : option value;
  _speed : option value;
  _direction : option value;
  _attr_preset_mode : option string;
  _attr_preset_modes : list string
}.

(** [__init__]: the fields of the entity before any snapshot is applied.
    The base-class initialiser is framework code outside this file. *)
Definition __init__ (device : BondDevice) (entity_id : string) : t :=
  {| _device := device; entity_id := entity_id;
     _power := None; _speed := None; _direction := None;
     _attr_preset_mode := None;
     _attr_preset_modes :=
       if has_action device Action.BREEZE_ON then [PRESET_MODE_BREEZE] else [] |}.

(** [breeze[0]] for [breeze = state.get("breeze", [0, 0, 0])]. *)
Definition breeze_head (st : gmap string value) : result Z :=
  match default (VList [0; 0; 0]) (st !! "breeze") with
  | VList l => py_getitem l 0
  | _ => Raise TypeError
  end.

(** [_apply_state]: the assignments happen in order, so the power, speed
    and direction are already stored when reading the breeze raises. *)
Definition _apply_state (self : t) : result unit * t :=
  let st := state (_device self) in
  let set preset :=
    {| _device := _device self; entity_id := entity_id self;
       _power := st !! "power"; _speed := st !! "speed";
       _direction := st !! "direction";
       _attr_preset_mode := preset;
       _attr_preset_modes := _attr_preset_modes self |} in
  match breeze_head st with
  | Ok b => (Ok tt, set (if b =? 0 then None else Some PRESET_MODE_BREEZE))
  | Raise e => (Raise e, set (_attr_preset_mode self))
  end.

(** A new snapshot arrives from the hub and is applied. *)
Definition apply_snapshot (self : t) (st : gmap string value) : result unit * t :=
  _apply_state
    {| _device := with_state (_device self) st; entity_id := entity_id self;
       _power := _power self; _speed := _speed self;
       _direction := _direction self;
       _attr_preset_mode := _attr_preset_mode self;
       _attr_preset_modes := _attr_preset_modes self |}.

Definition _speed_range (self : t) : Z * Z :=
  (1, default 3 (props (_device self) !! "max_speed")).

Definition percentage (self : t) : result Z :=
  if negb (truthy (_speed self)) || negb (truthy (_power self)) then Ok 0
  else
    match _speed self with
    | None => Ok 0
    | Some v =>
        rbind (as_int v) (λ speed,
        rbind (ranged_value_to_percentage (_speed_range self) speed) (λ p,
        Ok (Z.min 100 (Z.max 0 p))))
    end.

Definition speed_count (self : t) : Z :=
  int_states_in_range (_speed_range self).

(** [self.preset_mode], the framework property reading the attribute. *)
Definition preset_mode (self : t) : option string := _attr_preset_mode self.

Definition async_turn_off (self : t) : M unit :=
  (if bool_decide (preset_mode self = Some PRESET_MODE_BREEZE)
   then bond_action (device_id (_device self)) (Action.Action Action.BREEZE_OFF Action.ArgNone)
   else mret tt) ;;
  bond_action (device_id (_device self)) Action.turn_off.

Definition async_set_percentage (self : t) (percentage : Z) : M unit :=
  if percentage =? 0 then async_turn_off self
  else
    let bond_speed := percentage_to_step (_speed_range self) percentage in
    bond_action (device_id (_device self)) (Action.set_speed bond_speed).

Definition async_set_power_belief (self : t) (power_state : bool) : M unit :=
  try_except_ClientResponseError
    (bond_action (device_id (_device self))
       (Action.set_power_state_belief power_state))
    (λ code message,
       raise (HomeAssistantError
         ("The bond API returned an error calling set_power_state_belief for"
          +:+ " " +:+ entity_id self +:+ ".  Code: " +:+ pretty code
          +:+ "  Message: " +:+ message))).

Definition async_set_speed_belief (self : t) (speed : Z) : M unit :=
  if speed =? 0 then async_set_power_belief self false
  else
    async_set_power_belief self true ;;
    let bond_speed := percentage_to_step (_speed_range self) speed in
    try_except_ClientResponseError
      (bond_action (device_id (_device self)) (Action.set_speed_belief bond_speed))
      (λ code message,
         raise (HomeAssistantError
           ("The bond API returned an error calling set_speed_belief for"
            +:+ " " +:+ entity_id self +:+ ".  Code: " +:+ pretty code
            +:+ "  Message: " +:+ message))).

Definition async_set_preset_mode (self : t) (preset_mode : string) : M unit :=
  if negb (bool_decide (preset_mode = PRESET_MODE_BREEZE))
     || negb (has_action (_device self) Action.BREEZE_ON)
  then raise (ValueError ("Invalid preset mode: " +:+ preset_mode))
  else bond_action (device_id (_device self))
         (Action.Action Action.BREEZE_ON Action.ArgNone).

Definition async_turn_on (self : t)
    (percentage : option Z) (preset_mode : option string) : M unit :=
  match preset_mode, percentage with
  | Some mode, _ => async_set_preset_mode self mode
  | None, Some p => async_set_percentage self p
  | None, None => bond_action (device_id (_device self)) Action.turn_on
  end.

Definition current_direction (self : t) : option string :=
  match _direction self with
  | None => None
  | Some v =>
      if py_eq_int v Direction.FORWARD then Some DIRECTION_FORWARD
      else if py_eq_int v Direction.REVERSE then Some DIRECTION_REVERSE
      else None
  end.

Definition async_set_direction (self : t) (direction : string) : M unit :=
  let bond_direction :=
    if bool_decide (direction = DIRECTION_REVERSE)
    then Direction.REVERSE else Direction.FORWARD in
  bond_action (device_id (_device self)) (Action.set_direction bond_direction).

End BondFan.

(** ** [class BondFireplaceFan] *)

Module BondFireplaceFan.

Record t : Type := {
  _device : BondDevice;
  entity_id : string;
  _power : option value;
  _speed : option Z;
  _speeds : list Z
}.

(** [__init__]: the step table is the sorted list of the arguments of the
    device's [SET_FP_FAN] commands.  The base-class initialiser is
    framework code outside this file. *)
Definition __init__ (device : BondDevice) (entity_id : string) : t :=
  let speed_cmds := find_commands device Action.SET_FP_FAN in
  {| _device := device; entity_id := entity_id;
     _power := None; _speed := None;
     _speeds := sorted (map cmd_argument speed_cmds) |}.

Definition _speed_range (self : t) : Z * Z :=
  (1, Z.of_nat (length (_speeds self))).

Definition _to_bond_percentage (self : t) (percentage : Z) : result Z :=
  if percentage =? 0 then Ok 0
  else
    let speed := percentage_to_step (_speed_range self) percentage in
    rbind (py_getitem (_speeds self) (speed - 1)) (λ x,
    Ok (Z.min 100 x)).

Definition _from_bond_percentage (self : t) (bond_percentage : option value)
    : result Z :=
  if negb (truthy bond_percentage) then Ok 0
  else
    match bond_percentage with
    | None => Ok 0
    | Some v =>
        rbind (list_index (_speeds self) v) (λ speed,
        rbind (ranged_value_to_percentage (_speed_range self) (speed + 1)) (λ p,
        Ok (Z.min 100 (Z.max 0 p))))
    end.

(** [_apply_state]: the power is stored before the speed is converted, so
    it is already updated when the conversion raises. *)
Definition _apply_state (self : t) : result unit * t :=
  let st := state (_device self) in
  let self1 :=
    {| _device := _device self; entity_id := entity_id self;
       _power := st !! "fpfan_power"; _speed := _speed self;
       _speeds := _speeds self |} in
  match _from_bond_percentage self1 (st !! "fpfan_speed") with
  | Ok p =>
      (Ok tt,
       {| _device := _device self; entity_id := entity_id self;
          _power := st !! "fpfan_power"; _speed := Some p;
          _speeds := _speeds self |})
  | Raise e => (Raise e, self1)
  end.

(** A new snapshot arrives from the hub and is applied. *)
Definition apply_snapshot (self : t) (st : gmap string value) : result unit * t :=
  _apply_state
    {| _device := with_state (_device self) st; entity_id := entity_id self;
       _power := _power self; _speed := _speed self;
       _speeds := _speeds self |}.

Definition percentage (self : t) : Z :=
  if negb (truthy (VInt <$> _speed self)) || negb (truthy (_power self)) then 0
  else default 0 (_speed self).

Definition speed_count (self : t) : Z :=
  int_states_in_range (_speed_range self).

Definition async_turn_off (self : t) : M unit :=
  bond_action (device_id (_device self))
    (Action.Action Action.TURN_FP_FAN_OFF Action.ArgNone).

Definition async_set_percentage (self : t) (percentage : Z) : M unit :=
  if percentage =? 0 then async_turn_off self
  else
    bond_percentage ← lift (_to_bond_percentage self percentage);
    bond_action (device_id (_device self))
      (Action.Action Action.SET_FP_FAN (Action.ArgInt bond_percentage)).

(** The argument is written as the set literal
    [{"fpfan_power", int(power_state)}]. *)
Definition async_set_power_belief (self : t) (power_state : bool) : M unit :=
  try_except_ClientResponseError
    (bond_action (device_id (_device self))
       (Action.Action Action.SET_STATE_BELIEF
          (Action.ArgSet {[ inl "fpfan_power"; inr (Z.b2z power_state) ]})))
    (λ code message,
       raise (HomeAssistantError
         ("The bond API returned an error calling set_fpfan_power_state_belief for"
          +:+ " " +:+ entity_id self +:+ ".  Code: " +:+ pretty code
          +:+ "  Message: " +:+ message))).

(** The argument is written as the set literal
    [{"fpfan_speed", self._to_bond_percentage(speed)}]; it is evaluated
    inside the [try], before the call. *)
Definition async_set_speed_belief (self : t) (speed : Z) : M unit :=
  if speed =? 0 then async_set_power_belief self false
  else
    async_set_power_belief self true ;;
    try_except_ClientResponseError
      (bond_percentage ← lift (_to_bond_percentage self speed);
       bond_action (device_id (_device self))
         (Action.Action Action.SET_STATE_BELIEF
            (Action.ArgSet {[ inl "fpfan_speed"; inr bond_percentage ]})))
      (λ code message,
         raise (HomeAssistantError
           ("The bond API returned an error calling set_fpfan_speed_belief for"
            +:+ " " +:+ entity_id self +:+ ".  Code: " +:+ pretty code
            +:+ "  Message: " +:+ message))).

Definition async_turn_on (self : t) (percentage : option Z) : M unit :=
  match percentage with
  | Some p => async_set_percentage self p
  | None => bond_action (device_id (_device self))
              (Action.Action Action.TURN_FP_FAN_ON Action.ArgNone)
  end.

End BondFireplaceFan.

(** ** Belief-state calls *)

(** The four belief-state coroutines of the two adapters. *)
Inductive belief_call : Type :=
  | FanPowerBelief (self : BondFan.t) (power_state : bool)
  | FanSpeedBelief (self : BondFan.t) (speed : Z)
  | FireplacePowerBelief (self : BondFireplaceFan.t) (power_state : bool)
  | FireplaceSpeedBelief (self : BondFireplaceFan.t) (speed : Z).

Definition run_belief (b : belief_call) : M unit :=
  match b with
  | FanPowerBelief self power_state => BondFan.async_set_power_belief self power_state
  | FanSpeedBelief self speed => BondFan.async_set_speed_belief self speed
  | FireplacePowerBelief self power_state =>
      BondFireplaceFan.async_set_power_belief self power_state
  | FireplaceSpeedBelief self speed => BondFireplaceFan.async_set_speed_belief self speed
  end.

Definition acting_entity (b : belief_call) : string :=
  match b with
  | FanPowerBelief self _ | FanSpeedBelief self _ => BondFan.entity_id self
  | FireplacePowerBelief self _ | FireplaceSpeedBelief self _ =>
      BondFireplaceFan.entity_id self
  end.

(** The hub raised a transport error with this code and message on one of
    the calls that the coroutine made when started from [log]. *)
Definition transport_error_during {A} (m : M A) (bond : Bond) (log : list call)
    (code : Z) (message : string) : Prop :=
  ∃ pre c post,
    snd (m bond log) = log ++ pre ++ c :: post
    ∧ bond (log ++ pre) c = Some (code, message).

(** [needle] occurs in [text]. *)
Definition contains (needle text : string) : Prop :=
  ∃ pre post, text = pre +:+ needle +:+ post.

(** The text of the error raised by a belief-state coroutine, as the four
    handlers format it: ["... calling <what> for <entity>.  Code: <code>
    Message: <message>"]. *)
Definition belief_error_text (what entity_id : string) (code : Z) (message : string)
    : string :=
  "The bond API returned an error calling " +:+ what +:+ " for"
  +:+ " " +:+ entity_id +:+ ".  Code: " +:+ pretty code
  +:+ "  Message: " +:+ message.

(** ** Example devices and hubs *)

(** A three-speed fan and a three-step fireplace fan. *)
Definition fan_device : BondDevice :=
  {| device_id := "fan-1"; props := {[ "max_speed" := 3 ]}; state := ∅;
     actions := [Action.SET_SPEED; Action.BREEZE_ON; Action.BREEZE_OFF];
     commands := [] |}.

Definition fireplace_device (arguments : list Z) : BondDevice :=
  {| device_id := "fp-1"; props := ∅; state := ∅;
     actions := [Action.SET_FP_FAN];
     commands := map (λ a, {| cmd_action := Action.SET_FP_FAN; cmd_argument := a |})
                   arguments |}.

Definition fan_1 : BondFan.t := BondFan.__init__ fan_device "fan.fan_1".
Definition fireplace_1 : BondFireplaceFan.t :=
  BondFireplaceFan.__init__ (fireplace_device [100; 33; 66]) "fan.fp_1".

(** A fireplace fan whose device lists no [SET_FP_FAN] command. *)
Definition fireplace_0 : BondFireplaceFan.t :=
  BondFireplaceFan.__init__ (fireplace_device []) "fan.fp_0".

(** The fan after a snapshot in which the breeze preset is on. *)
Definition breeze_fan : BondFan.t :=
  snd (BondFan.apply_snapshot fan_1
         {[ "power" := VBool true; "speed" := VInt 2; "breeze" := VList [1; 50; 50] ]}).

(** A hub that answers every call with status 500. *)
Definition bond_500 : Bond := λ _ _, Some (500, "Internal Server Error").

(** A hub that completes the first call and fails from the second on. *)
Definition bond_second_500 : Bond :=
  λ log _, if bool_decide (log = []) then None else Some (500, "Internal Server Error").

(** ** Actuation calls and snapshot histories *)

(** The coroutines of the two adapters that actuate the device. *)
Inductive actuation_call : Type :=
  | FanSetPercentage (self : BondFan.t) (percentage : Z)
  | FanTurnOn (self : BondFan.t) (percentage : option Z) (preset_mode : option string)
  | FanSetPresetMode (self : BondFan.t) (preset_mode : string)
  | FanTurnOff (self : BondFan.t)
  | FanSetDirection (self : BondFan.t) (direction : string)
  | FireplaceSetPercentage (self : BondFireplaceFan.t) (percentage : Z)
  | FireplaceTurnOn (self : BondFireplaceFan.t) (percentage : option Z)
  | FireplaceTurnOff (self : BondFireplaceFan.t).

Definition run_actuation (a : actuation_call) : M unit :=
  match a with
  | FanSetPercentage self percentage => BondFan.async_set_percentage self percentage
  | FanTurnOn self percentage preset_mode =>
      BondFan.async_turn_on self percentage preset_mode
  | FanSetPresetMode self preset_mode => BondFan.async_set_preset_mode self preset_mode
  | FanTurnOff self => BondFan.async_turn_off self
  | FanSetDirection self direction => BondFan.async_set_direction self direction
  | FireplaceSetPercentage self percentage =>
      BondFireplaceFan.async_set_percentage self percentage
  | FireplaceTurnOn self percentage => BondFireplaceFan.async_turn_on self percentage
  | FireplaceTurnOff self => BondFireplaceFan.async_turn_off self
  end.

(** The device an entity acts on. *)
Definition actuation_device (a : actuation_call) : string :=
  match a with
  | FanSetPercentage self _ | FanTurnOn self _ _ | FanSetPresetMode self _
  | FanTurnOff self | FanSetDirection self _ =>
      device_id (BondFan._device self)
  | FireplaceSetPercentage self _ | FireplaceTurnOn self _ | FireplaceTurnOff self =>
      device_id (BondFireplaceFan._device self)
  end.

Definition belief_device (b : belief_call) : string :=
  match b with
  | FanPowerBelief self _ | FanSpeedBelief self _ => device_id (BondFan._device self)
  | FireplacePowerBelief self _ | FireplaceSpeedBelief self _ =>
      device_id (BondFireplaceFan._device self)
  end.

(** Started from any log, the coroutine only appends to it, at most two
    calls, all of them addressed to [dev]. *)
Definition calls_only {A} (m : M A) (dev : string) : Prop :=
  ∀ (bond : Bond) (log : list call),
    ∃ new, snd (m bond log) = log ++ new
           ∧ (length new ≤ 2)%nat
           ∧ Forall (λ c : call, fst c = dev) new.

(** The entity after a series of snapshots, each applied whether or not its
    application raised. *)
Definition fan_after (self : BondFan.t) (snapshots : list (gmap string value))
    : BondFan.t :=
  foldl (λ fan st, snd (BondFan.apply_snapshot fan st)) self snapshots.

Definition fireplace_after (self : BondFireplaceFan.t)
    (snapshots : list (gmap string value)) : BondFireplaceFan.t :=
  foldl (λ fp st, snd (BondFireplaceFan.apply_snapshot fp st)) self snapshots.

(** *** Arithmetic of the conversion *)

Lemma Qfloor_plus_Z (x : Q) (z : Z) : Qfloor (x + inject_Z z) = Qfloor x + z.
Proof.
  destruct x as [n d]. unfold Qfloor, Qplus, inject_Z. simpl.
  rewrite Z.mul_1_r, Pos.mul_1_r.
  rewrite Z.div_add by lia. reflexivity.
Qed.

Lemma Qceiling_plus_Z (x : Q) (z : Z) : Qceiling (x + inject_Z z) = Qceiling x + z.
Proof.
  unfold Qceiling.
  assert (E : (- (x + inject_Z z) == - x + inject_Z (- z))%Q).
  { rewrite inject_Z_opp. ring. }
  rewrite (Qfloor_comp _ _ E), Qfloor_plus_Z. lia.
Qed.

Lemma percentage_to_step_floor_eq (n p : Z) :
  percentage_to_step_floor (1, n) p = (n * p) / 100.
Proof.
  unfold percentage_to_step_floor, math_floor, percentage_to_ranged_value,
    states_in_range. cbn [fst snd].
  rewrite Qfloor_plus_Z, <- Zdiv_Qdiv.
  replace (n - 1 + 1) with n by lia. lia.
Qed.

Lemma percentage_to_step_eq (n p : Z) :
  percentage_to_step (1, n) p = - ((- (n * p)) / 100).
Proof.
  unfold percentage_to_step, math_ceil, percentage_to_ranged_value,
    states_in_range. cbn [fst snd].
  rewrite Qceiling_plus_Z. unfold Qceiling.
  assert (E : (- (inject_Z ((n - 1 + 1) * p) / inject_Z 100)
               == inject_Z (- (n * p)) / inject_Z 100)%Q).
  { replace (n - 1 + 1) with n by lia. rewrite inject_Z_opp. field. }
  rewrite (Qfloor_comp _ _ E), <- Zdiv_Qdiv. lia.
Qed.

(** The ceiling step [s] is characterised by [100 (s-1) < n p <= 100 s]. *)
Lemma percentage_to_step_bounds (n p : Z) :
  let s := percentage_to_step (1, n) p in
  100 * (s - 1) < n * p <= 100 * s.
Proof.
  cbv zeta. rewrite percentage_to_step_eq.
  pose proof (Z.div_mod (- (n * p)) 100 ltac:(lia)) as Hdm.
  pose proof (Z.mod_pos_bound (- (n * p)) 100 ltac:(lia)) as Hm.
  lia.
Qed.

Lemma percentage_to_step_unique (n p s : Z) :
  100 * (s - 1) < n * p <= 100 * s → percentage_to_step (1, n) p = s.
Proof.
  intros Hs. pose proof (percentage_to_step_bounds n p) as Hb.
  cbv zeta in Hb. lia.
Qed.

Lemma percentage_to_step_range (n p : Z) :
  1 ≤ n → 1 ≤ p ≤ 100 → 1 ≤ percentage_to_step (1, n) p ≤ n.
Proof.
  intros Hn Hp.
  pose proof (percentage_to_step_bounds n p) as Hb. cbv zeta in Hb. nia.
Qed.

(** ** Percentage to step *)

(** C1.  For every speed range [(1, n)] with [n >= 1] and every percentage
    [p] in [[1, 100]], the step [math.ceil(percentage_to_ranged_value(...))]
    computed by [BondFan.async_set_percentage] and
    [BondFireplaceFan._to_bond_percentage] lies in [[1, n]], does not
    decrease when the percentage grows, and is at least the step that
    rounding the same linear mapping down would give. *)
Theorem percentage_to_step_in_range_monotone_ceiling (n p : Z) :
  1 ≤ n → 1 ≤ p ≤ 100 →
  1 ≤ percentage_to_step (1, n) p ≤ n
  ∧ (∀ p', p ≤ p' ≤ 100 →
       percentage_to_step (1, n) p ≤ percentage_to_step (1, n) p')
  ∧ percentage_to_step_floor (1, n) p ≤ percentage_to_step (1, n) p.
Proof.
  intros Hn Hp.
  pose proof (percentage_to_step_bounds n p) as Hb. cbv zeta in Hb.
  split; [apply percentage_to_step_range; assumption |]. split.
  - intros p' Hp'.
    pose proof (percentage_to_step_bounds n p') as Hb'. cbv zeta in Hb'.
    nia.
  - rewrite percentage_to_step_floor_eq.
    pose proof (Z.mul_div_le (n * p) 100 ltac:(lia)). lia.
Qed.

(** The spec's example: on a three-step fan 50 % selects step 2, and the
    bounds and the ceiling property hold there. *)
Lemma percentage_to_step_three_steps_50 :
  percentage_to_step (1, 3) 50 = 2
  ∧ 1 ≤ percentage_to_step (1, 3) 50 ≤ 3
  ∧ percentage_to_step (1, 3) 50 ≤ percentage_to_step (1, 3) 67
  ∧ percentage_to_step_floor (1, 3) 50 ≤ percentage_to_step (1, 3) 50.
Proof.
  destruct (percentage_to_step_in_range_monotone_ceiling 3 50)
    as (Hr & Hm & Hf); [lia | lia |].
  split; [reflexivity |].
  split; [exact Hr |].
  split; [apply Hm; lia | exact Hf].
Defined.

(** ** Running coroutines *)

Lemma bond_action_run (dev : string) (a : Action.t) (bond : Bond) (log : list call) :
  bond_action dev a bond log =
    (match bond log (dev, a) with
     | None => Ok tt
     | Some (code, message) => Raise (ClientResponseError code message)
     end, log ++ [(dev, a)]).
Proof.
  unfold bond_action. destruct (bond log (dev, a)) as [[code message]|]; reflexivity.
Qed.

Lemma bind_run {A B} (m : M A) (k : A → M B) (bond : Bond) (log : list call) :
  (m ≫= k) bond log =
    match m bond log with
    | (Ok a, log') => k a bond log'
    | (Raise e, log') => (Raise e, log')
    end.
Proof. reflexivity. Qed.

(** The spec's examples of [set_percentage]: on a three-speed fan 50 %
    dispatches [set_speed(2)]; on the fireplace table 33, 66, 100, 40 %
    selects step 2 and dispatches [SET_FP_FAN] with 66. *)
Example set_percentage_50_on_three_speeds :
  calls_of (BondFan.async_set_percentage fan_1 50) bond_ok =
    [("fan-1", Action.set_speed 2)].
Proof. vm_compute. reflexivity. Qed.

Example set_percentage_40_on_33_66_100 :
  calls_of (BondFireplaceFan.async_set_percentage fireplace_1 40) bond_ok =
    [("fp-1", Action.Action Action.SET_FP_FAN (Action.ArgInt 66))].
Proof. vm_compute. reflexivity. Qed.

(** ** Percentage zero *)

(** C2.  On both adapters [async_set_percentage(0)] is the turn-off
    coroutine itself, so no step is computed.  Whatever the hub answers, the
    standard fan dispatches exactly the turn-off calls: the turn-off call
    alone when the breeze preset is not active; the preset-off call followed
    by the turn-off call when it is active and the hub completes the
    preset-off call; the preset-off call alone when the hub rejects it.  At
    least one call is always dispatched, none of the calls is a speed-set
    action, and the fireplace fan dispatches the single [TURN_FP_FAN_OFF]
    call. *)
Theorem set_percentage_zero_routes_to_turn_off
    (fan : BondFan.t) (fp : BondFireplaceFan.t) (bond : Bond) :
  let dev := device_id (BondFan._device fan) in
  let preset_off := (dev, Action.Action Action.BREEZE_OFF Action.ArgNone) in
  let off := (dev, Action.turn_off) in
  BondFan.async_set_percentage fan 0 = BondFan.async_turn_off fan
  ∧ calls_of (BondFan.async_set_percentage fan 0) bond =
      (if bool_decide (BondFan.preset_mode fan = Some PRESET_MODE_BREEZE)
       then match bond [] preset_off with
            | None => [preset_off; off]
            | Some _ => [preset_off]
            end
       else [off])
  ∧ calls_of (BondFan.async_set_percentage fan 0) bond ≠ []
  ∧ Forall (λ c, c = preset_off ∨ c = off)
      (calls_of (BondFan.async_set_percentage fan 0) bond)
  ∧ Forall (λ c : call, ∀ speed, snd c ≠ Action.set_speed speed)
      (calls_of (BondFan.async_set_percentage fan 0) bond)
  ∧ BondFireplaceFan.async_set_percentage fp 0 = BondFireplaceFan.async_turn_off fp
  ∧ calls_of (BondFireplaceFan.async_set_percentage fp 0) bond =
      [(device_id (BondFireplaceFan._device fp),
        Action.Action Action.TURN_FP_FAN_OFF Action.ArgNone)].
Proof.
  cbv zeta.
  assert (Hcalls :
    calls_of (BondFan.async_set_percentage fan 0) bond =
      (if bool_decide (BondFan.preset_mode fan = Some PRESET_MODE_BREEZE)
       then match bond [] (device_id (BondFan._device fan),
                           Action.Action Action.BREEZE_OFF Action.ArgNone) with
            | None => [(device_id (BondFan._device fan),
                        Action.Action Action.BREEZE_OFF Action.ArgNone);
                       (device_id (BondFan._device fan), Action.turn_off)]
            | Some _ => [(device_id (BondFan._device fan),
                          Action.Action Action.BREEZE_OFF Action.ArgNone)]
            end
       else [(device_id (BondFan._device fan), Action.turn_off)])).
  { unfold calls_of. cbn [BondFan.async_set_percentage Z.eqb].
    unfold BondFan.async_turn_off. rewrite bind_run.
    case_bool_decide.
    - rewrite bond_action_run.
      destruct (bond [] _) as [[code message]|]; cbn [snd app]; [reflexivity |].
      rewrite bond_action_run. reflexivity.
    - cbn. rewrite bond_action_run. reflexivity. }
  split; [reflexivity |]. split; [exact Hcalls |].
  rewrite Hcalls.
  split; [| split; [| split; [| split; [reflexivity |]]]].
  - case_bool_decide; [destruct (bond [] _) |]; cbv iota; discriminate.
  - case_bool_decide; [destruct (bond [] _) |]; cbv iota;
      repeat (apply Forall_cons; split; [auto |]); apply Forall_nil; exact I.
  - case_bool_decide; [destruct (bond [] _) |]; cbv iota;
      repeat (apply Forall_cons; split; [intros speed; discriminate |]);
      apply Forall_nil; exact I.
  - unfold calls_of. cbn [BondFireplaceFan.async_set_percentage Z.eqb].
    unfold BondFireplaceFan.async_turn_off. rewrite bond_action_run. reflexivity.
Qed.

(** ** Projected percentage *)

(** C4.  After a snapshot has been applied, the percentage property of
    either adapter is 0 as soon as the stored power flag or the stored
    speed is falsy; in particular a falsy power flag in the snapshot forces
    0 whatever speed the snapshot carries. *)
Theorem percentage_zero_when_off_or_no_speed
    (fan : BondFan.t) (fp : BondFireplaceFan.t) (st : gmap string value) :
  let fan' := snd (BondFan.apply_snapshot fan st) in
  let fp' := snd (BondFireplaceFan.apply_snapshot fp st) in
  (truthy (BondFan._power fan') = false ∨ truthy (BondFan._speed fan') = false →
     BondFan.percentage fan' = Ok 0)
  ∧ (truthy (st !! "power") = false → BondFan.percentage fan' = Ok 0)
  ∧ (truthy (BondFireplaceFan._power fp') = false
     ∨ truthy (VInt <$> BondFireplaceFan._speed fp') = false →
     BondFireplaceFan.percentage fp' = 0)
  ∧ (truthy (st !! "fpfan_power") = false → BondFireplaceFan.percentage fp' = 0).
Proof.
  cbv zeta.
  assert (Hfan : BondFan._power (snd (BondFan.apply_snapshot fan st)) = st !! "power").
  { unfold BondFan.apply_snapshot, BondFan._apply_state. cbn.
    destruct (BondFan.breeze_head st); reflexivity. }
  assert (Hfp : BondFireplaceFan._power (snd (BondFireplaceFan.apply_snapshot fp st))
                = st !! "fpfan_power").
  { unfold BondFireplaceFan.apply_snapshot, BondFireplaceFan._apply_state. cbn.
    destruct (BondFireplaceFan._from_bond_percentage _ _); reflexivity. }
  assert (Poff : ∀ f, truthy (BondFan._power f) = false ∨ truthy (BondFan._speed f) = false
                      → BondFan.percentage f = Ok 0).
  { intros f [H | H]; unfold BondFan.percentage; rewrite H;
      [rewrite orb_true_r | ]; reflexivity. }
  assert (Qoff : ∀ f, truthy (BondFireplaceFan._power f) = false
                      ∨ truthy (VInt <$> BondFireplaceFan._speed f) = false
                      → BondFireplaceFan.percentage f = 0).
  { intros f [H | H]; unfold BondFireplaceFan.percentage; rewrite H;
      [rewrite orb_true_r | ]; reflexivity. }
  repeat split.
  - apply Poff.
  - intros H. apply Poff. left. rewrite Hfan. exact H.
  - apply Qoff.
  - intros H. apply Qoff. left. rewrite Hfp. exact H.
Qed.

(** The spec's example: the snapshot [{power: false, speed: 3}] on a fan
    with range [(1, 3)] projects to percentage 0, and so does
    [{fpfan_power: false, fpfan_speed: 100}] on the fireplace fan. *)
Lemma percentage_zero_power_false_speed_3 :
  BondFan._speed_range fan_1 = (1, 3)
  ∧ BondFan.percentage
      (snd (BondFan.apply_snapshot fan_1
              {[ "power" := VBool false; "speed" := VInt 3 ]})) = Ok 0
  ∧ BondFireplaceFan.percentage
      (snd (BondFireplaceFan.apply_snapshot fireplace_1
              {[ "fpfan_power" := VBool false; "fpfan_speed" := VInt 100 ]})) = 0.
Proof.
  split; [reflexivity |]. split.
  - destruct (percentage_zero_when_off_or_no_speed fan_1 fireplace_1
                {[ "power" := VBool false; "speed" := VInt 3 ]})
      as (_ & H & _).
    apply H. reflexivity.
  - destruct (percentage_zero_when_off_or_no_speed fan_1 fireplace_1
                {[ "fpfan_power" := VBool false; "fpfan_speed" := VInt 100 ]})
      as (_ & _ & _ & H).
    apply H. reflexivity.
Defined.

(** ** Turning off *)

Lemma breeze_fan_preset_active :
  BondFan.preset_mode breeze_fan = Some PRESET_MODE_BREEZE.
Proof. reflexivity. Qed.

(** C5, as stated, fails when the hub rejects the preset-off call: with the
    breeze preset active and a hub answering 500, [async_turn_off] makes the
    [BREEZE_OFF] call only and the transport error leaves the coroutine; the
    turn-off call is never made. *)
Lemma turn_off_stops_when_preset_off_fails :
  BondFan.preset_mode breeze_fan = Some PRESET_MODE_BREEZE
  ∧ calls_of (BondFan.async_turn_off breeze_fan) bond_500 =
      [("fan-1", Action.Action Action.BREEZE_OFF Action.ArgNone)]
  ∧ outcome_of (BondFan.async_turn_off breeze_fan) bond_500 =
      Raise (ClientResponseError 500 "Internal Server Error")
  ∧ calls_of (BondFan.async_turn_off breeze_fan) bond_500 ≠
      [("fan-1", Action.Action Action.BREEZE_OFF Action.ArgNone);
       ("fan-1", Action.turn_off)].
Proof.
  split; [reflexivity |]. split; [reflexivity |]. split; [reflexivity |].
  discriminate.
Qed.

(** C5, amended.  While the breeze preset is active, [async_turn_off] first
    makes the [BREEZE_OFF] call and, when the hub completes it, the turn-off
    call: exactly these two, in this order.  When the hub rejects the
    [BREEZE_OFF] call the transport error propagates after that single call.
    When the preset is not active exactly one turn-off call is made. *)
Theorem turn_off_dispatch (fan : BondFan.t) (bond : Bond) (log : list call) :
  let dev := device_id (BondFan._device fan) in
  let preset_off := (dev, Action.Action Action.BREEZE_OFF Action.ArgNone) in
  let off := (dev, Action.turn_off) in
  (BondFan.preset_mode fan = Some PRESET_MODE_BREEZE →
     bond log preset_off = None →
     snd (BondFan.async_turn_off fan bond log) = log ++ [preset_off; off])
  ∧ (BondFan.preset_mode fan = Some PRESET_MODE_BREEZE →
     ∀ code message, bond log preset_off = Some (code, message) →
     BondFan.async_turn_off fan bond log =
       (Raise (ClientResponseError code message), log ++ [preset_off]))
  ∧ (BondFan.preset_mode fan ≠ Some PRESET_MODE_BREEZE →
     snd (BondFan.async_turn_off fan bond log) = log ++ [off]).
Proof.
  cbv zeta. unfold BondFan.async_turn_off. rewrite bind_run.
  repeat split.
  - intros Hp Hb. rewrite bool_decide_eq_true_2 by exact Hp.
    rewrite bond_action_run, Hb, bond_action_run. cbn [snd].
    rewrite <- app_assoc. reflexivity.
  - intros Hp code message Hb. rewrite bool_decide_eq_true_2 by exact Hp.
    rewrite bond_action_run, Hb. reflexivity.
  - intros Hp. rewrite bool_decide_eq_false_2 by exact Hp.
    cbn. rewrite bond_action_run. reflexivity.
Qed.

(** With a hub that completes every call: two calls in order while the
    preset is active, one call otherwise. *)
Lemma turn_off_dispatch_examples :
  calls_of (BondFan.async_turn_off breeze_fan) bond_ok =
    [("fan-1", Action.Action Action.BREEZE_OFF Action.ArgNone);
     ("fan-1", Action.turn_off)]
  ∧ calls_of (BondFan.async_turn_off breeze_fan) bond_500 =
      [("fan-1", Action.Action Action.BREEZE_OFF Action.ArgNone)]
  ∧ calls_of (BondFan.async_turn_off fan_1) bond_ok = [("fan-1", Action.turn_off)].
Proof.
  split; [| split].
  - apply (proj1 (turn_off_dispatch breeze_fan bond_ok [])); reflexivity.
  - unfold calls_of.
    rewrite (proj1 (proj2 (turn_off_dispatch breeze_fan bond_500 []))
               eq_refl 500 "Internal Server Error" eq_refl).
    reflexivity.
  - apply (proj2 (proj2 (turn_off_dispatch fan_1 bond_ok []))). discriminate.
Defined.

(** ** Belief-state coroutines *)

Lemma string_app_assoc (s1 s2 s3 : string) :
  (s1 +:+ s2) +:+ s3 = s1 +:+ s2 +:+ s3.
Proof.
  induction s1 as [| a s1 IH]; [reflexivity |].
  change (String a (s1 +:+ s2 +:+ s3)) with (String a s1 +:+ s2 +:+ s3).
  change (String a ((s1 +:+ s2) +:+ s3) = String a (s1 +:+ s2 +:+ s3)).
  rewrite IH. reflexivity.
Qed.

Lemma string_app_empty_r (s : string) : s +:+ "" = s.
Proof.
  induction s as [| a s IH]; [reflexivity |].
  change (String a (s +:+ "") = String a s). rewrite IH. reflexivity.
Qed.

Lemma belief_error_text_contains (what entity_id : string) (code : Z) (message : string) :
  let text := belief_error_text what entity_id code message in
  contains (pretty code) text ∧ contains message text ∧ contains entity_id text.
Proof.
  cbv zeta. unfold belief_error_text, contains. repeat split.
  - exists ("The bond API returned an error calling " +:+ what +:+ " for"
            +:+ " " +:+ entity_id +:+ ".  Code: "), ("  Message: " +:+ message).
    rewrite !string_app_assoc. reflexivity.
  - exists ("The bond API returned an error calling " +:+ what +:+ " for"
            +:+ " " +:+ entity_id +:+ ".  Code: " +:+ pretty code +:+ "  Message: "), "".
    rewrite !string_app_assoc, string_app_empty_r. reflexivity.
  - exists ("The bond API returned an error calling " +:+ what +:+ " for" +:+ " "),
      (".  Code: " +:+ pretty code +:+ "  Message: " +:+ message).
    rewrite !string_app_assoc. reflexivity.
Qed.

Lemma fan_power_belief_run (fan : BondFan.t) (b : bool) (bond : Bond) (log : list call) :
  let c := (device_id (BondFan._device fan), Action.set_power_state_belief b) in
  BondFan.async_set_power_belief fan b bond log =
    (match bond log c with
     | None => Ok tt
     | Some (code, message) =>
         Raise (HomeAssistantError
                  (belief_error_text "set_power_state_belief"
                     (BondFan.entity_id fan) code message))
     end, log ++ [c]).
Proof.
  cbv zeta. unfold BondFan.async_set_power_belief, try_except_ClientResponseError.
  rewrite bond_action_run.
  destruct (bond log _) as [[code message]|]; reflexivity.
Qed.

Lemma fireplace_power_belief_run
    (fp : BondFireplaceFan.t) (b : bool) (bond : Bond) (log : list call) :
  let c := (device_id (BondFireplaceFan._device fp),
            Action.Action Action.SET_STATE_BELIEF
              (Action.ArgSet {[ inl "fpfan_power"; inr (Z.b2z b) ]})) in
  BondFireplaceFan.async_set_power_belief fp b bond log =
    (match bond log c with
     | None => Ok tt
     | Some (code, message) =>
         Raise (HomeAssistantError
                  (belief_error_text "set_fpfan_power_state_belief"
                     (BondFireplaceFan.entity_id fp) code message))
     end, log ++ [c]).
Proof.
  cbv zeta. unfold BondFireplaceFan.async_set_power_belief,
    try_except_ClientResponseError.
  rewrite bond_action_run.
  destruct (bond log _) as [[code message]|]; reflexivity.
Qed.

Lemma fan_speed_belief_run
    (fan : BondFan.t) (speed : Z) (bond : Bond) (log : list call) :
  speed ≠ 0 →
  let dev := device_id (BondFan._device fan) in
  let c1 := (dev, Action.set_power_state_belief true) in
  let c2 := (dev, Action.set_speed_belief
                    (percentage_to_step (BondFan._speed_range fan) speed)) in
  BondFan.async_set_speed_belief fan speed bond log =
    match bond log c1 with
    | Some (code, message) =>
        (Raise (HomeAssistantError
                  (belief_error_text "set_power_state_belief"
                     (BondFan.entity_id fan) code message)), log ++ [c1])
    | None =>
        (match bond (log ++ [c1]) c2 with
         | None => Ok tt
         | Some (code, message) =>
             Raise (HomeAssistantError
                      (belief_error_text "set_speed_belief"
                         (BondFan.entity_id fan) code message))
         end, log ++ [c1; c2])
    end.
Proof.
  intros Hs. cbv zeta. unfold BondFan.async_set_speed_belief.
  rewrite (proj2 (Z.eqb_neq speed 0) Hs).
  rewrite bind_run, fan_power_belief_run.
  destruct (bond log _) as [[code message]|]; [reflexivity |].
  unfold try_except_ClientResponseError. rewrite bond_action_run.
  rewrite <- app_assoc.
  destruct (bond (log ++ _) _) as [[code message]|]; reflexivity.
Qed.

Lemma py_getitem_raises {A} (l : list A) (i : Z) (e : exn) :
  py_getitem l i = Raise e → e = IndexError.
Proof.
  unfold py_getitem.
  destruct (_ && _); [destruct (l !! _) |]; intros H; congruence.
Qed.

Lemma to_bond_percentage_raises (fp : BondFireplaceFan.t) (p : Z) (e : exn) :
  BondFireplaceFan._to_bond_percentage fp p = Raise e → e = IndexError.
Proof.
  unfold BondFireplaceFan._to_bond_percentage.
  destruct (p =? 0); [discriminate |].
  destruct (py_getitem _ _) as [x | e'] eqn:E; cbn; [discriminate |].
  intros [= <-]. exact (py_getitem_raises _ _ _ E).
Qed.

Lemma fireplace_speed_belief_run
    (fp : BondFireplaceFan.t) (speed : Z) (bond : Bond) (log : list call) :
  speed ≠ 0 →
  let dev := device_id (BondFireplaceFan._device fp) in
  let c1 := (dev, Action.Action Action.SET_STATE_BELIEF
                    (Action.ArgSet {[ inl "fpfan_power"; inr 1 ]})) in
  BondFireplaceFan.async_set_speed_belief fp speed bond log =
    match bond log c1 with
    | Some (code, message) =>
        (Raise (HomeAssistantError
                  (belief_error_text "set_fpfan_power_state_belief"
                     (BondFireplaceFan.entity_id fp) code message)), log ++ [c1])
    | None =>
        match BondFireplaceFan._to_bond_percentage fp speed with
        | Raise e => (Raise e, log ++ [c1])
        | Ok v =>
            let c2 := (dev, Action.Action Action.SET_STATE_BELIEF
                              (Action.ArgSet {[ inl "fpfan_speed"; inr v ]})) in
            (match bond (log ++ [c1]) c2 with
             | None => Ok tt
             | Some (code, message) =>
                 Raise (HomeAssistantError
                          (belief_error_text "set_fpfan_speed_belief"
                             (BondFireplaceFan.entity_id fp) code message))
             end, log ++ [c1; c2])
        end
    end.
Proof.
  intros Hs. cbv zeta. unfold BondFireplaceFan.async_set_speed_belief.
  rewrite (proj2 (Z.eqb_neq speed 0) Hs).
  rewrite bind_run, fireplace_power_belief_run. cbn [Z.b2z].
  destruct (bond log _) as [[code message]|]; [reflexivity |].
  unfold try_except_ClientResponseError. rewrite bind_run. unfold lift.
  destruct (BondFireplaceFan._to_bond_percentage fp speed) as [v | e] eqn:E.
  - rewrite bond_action_run, <- app_assoc.
    destruct (bond (log ++ _) _) as [[code message]|]; reflexivity.
  - rewrite (to_bond_percentage_raises _ _ _ E). reflexivity.
Qed.

Lemma py_getitem_in_range {A} (l : list A) (i : Z) :
  0 ≤ i < Z.of_nat (length l) →
  ∃ x, l !! Z.to_nat i = Some x ∧ py_getitem l i = Ok x.
Proof.
  intros Hi. unfold py_getitem.
  destruct (i <? 0) eqn:E; [apply Z.ltb_lt in E; lia |].
  replace (0 <=? i) with true by (symmetry; apply Z.leb_le; lia).
  replace (i <? Z.of_nat (length l)) with true by (symmetry; apply Z.ltb_lt; lia).
  cbn [andb].
  destruct (l !! Z.to_nat i) as [x |] eqn:El.
  - exists x. split; reflexivity.
  - apply lookup_ge_None in El. lia.
Qed.

(** On a non-empty step table every percentage in [[1, 100]] selects an
    entry of the table, and the vendor value is that entry capped at 100. *)
Lemma to_bond_percentage_ok (fp : BondFireplaceFan.t) (p : Z) :
  1 ≤ p ≤ 100 → BondFireplaceFan._speeds fp ≠ [] →
  ∃ x,
    BondFireplaceFan._speeds fp
      !! Z.to_nat (percentage_to_step (BondFireplaceFan._speed_range fp) p - 1) = Some x
    ∧ BondFireplaceFan._to_bond_percentage fp p = Ok (Z.min 100 x).
Proof.
  intros Hp Hne. unfold BondFireplaceFan._to_bond_percentage.
  replace (p =? 0) with false by (symmetry; apply Z.eqb_neq; lia).
  assert (Hn : 1 ≤ Z.of_nat (length (BondFireplaceFan._speeds fp))).
  { destruct (BondFireplaceFan._speeds fp); [done | cbn [length]; lia]. }
  pose proof (percentage_to_step_range _ p Hn Hp) as Hs.
  fold (BondFireplaceFan._speed_range fp) in Hs.
  destruct (py_getitem_in_range (BondFireplaceFan._speeds fp)
              (percentage_to_step (BondFireplaceFan._speed_range fp) p - 1))
    as (x & Hx & Hg); [lia |].
  exists x. rewrite Hg. split; [exact Hx | reflexivity].
Qed.

(** C6, as stated, fails when the hub rejects the belief-power call: the
    error is re-raised after that single call and no belief-speed call is
    made, on either adapter.  It also fails on a fireplace fan whose step
    table is empty, where the conversion raises before the second call. *)
Lemma set_speed_belief_one_call_when_power_belief_fails :
  calls_of (BondFan.async_set_speed_belief fan_1 50) bond_500 =
    [("fan-1", Action.set_power_state_belief true)]
  ∧ outcome_of (BondFan.async_set_speed_belief fan_1 50) bond_500 =
      Raise (HomeAssistantError
               ("The bond API returned an error calling set_power_state_belief for"
                +:+ " fan.fan_1.  Code: 500  Message: Internal Server Error"))
  ∧ length (calls_of (BondFireplaceFan.async_set_speed_belief fireplace_1 50) bond_500)
    = 1%nat
  ∧ calls_of (BondFireplaceFan.async_set_speed_belief fireplace_0 50) bond_ok =
      [("fp-1", Action.Action Action.SET_STATE_BELIEF
                  (Action.ArgSet {[ inl "fpfan_power"; inr 1 ]}))]
  ∧ outcome_of (BondFireplaceFan.async_set_speed_belief fireplace_0 50) bond_ok =
      Raise IndexError.
Proof.
  repeat split; vm_compute; reflexivity.
Qed.

(** C6, amended.  On both adapters [async_set_speed_belief(0)] is
    [async_set_power_belief(False)] and makes exactly that one call.  For a
    nonzero speed the first call is the belief-power-true call; when the hub
    completes it, the standard fan makes exactly one more call, the
    belief-speed call carrying the ceiling step, and the fireplace fan with
    a non-empty step table and a speed in [[1, 100]] makes exactly one more
    call, the belief call carrying the vendor value of that step capped at
    100.  When the hub rejects the first call no second call is made. *)
Theorem set_speed_belief_dispatch
    (fan : BondFan.t) (fp : BondFireplaceFan.t) (bond : Bond) (log : list call)
    (speed : Z) :
  let fdev := device_id (BondFan._device fan) in
  let pdev := device_id (BondFireplaceFan._device fp) in
  let fp_power b :=
    (pdev, Action.Action Action.SET_STATE_BELIEF
             (Action.ArgSet {[ inl "fpfan_power"; inr (Z.b2z b) ]})) in
  (BondFan.async_set_speed_belief fan 0 = BondFan.async_set_power_belief fan false
   ∧ snd (BondFan.async_set_speed_belief fan 0 bond log) =
       log ++ [(fdev, Action.set_power_state_belief false)])
  ∧ (BondFireplaceFan.async_set_speed_belief fp 0 =
       BondFireplaceFan.async_set_power_belief fp false
     ∧ snd (BondFireplaceFan.async_set_speed_belief fp 0 bond log) =
         log ++ [fp_power false])
  ∧ (speed ≠ 0 → bond log (fdev, Action.set_power_state_belief true) = None →
     snd (BondFan.async_set_speed_belief fan speed bond log) =
       log ++ [(fdev, Action.set_power_state_belief true);
               (fdev, Action.set_speed_belief
                        (percentage_to_step (BondFan._speed_range fan) speed))])
  ∧ (1 ≤ speed ≤ 100 → BondFireplaceFan._speeds fp ≠ [] →
     bond log (fp_power true) = None →
     ∃ x,
       BondFireplaceFan._speeds fp
         !! Z.to_nat (percentage_to_step (BondFireplaceFan._speed_range fp) speed - 1)
         = Some x
       ∧ snd (BondFireplaceFan.async_set_speed_belief fp speed bond log) =
           log ++ [fp_power true;
                   (pdev, Action.Action Action.SET_STATE_BELIEF
                            (Action.ArgSet {[ inl "fpfan_speed"; inr (Z.min 100 x) ]}))])
  ∧ (speed ≠ 0 →
     (is_Some (bond log (fdev, Action.set_power_state_belief true)) →
      snd (BondFan.async_set_speed_belief fan speed bond log) =
        log ++ [(fdev, Action.set_power_state_belief true)])
     ∧ (is_Some (bond log (fp_power true)) →
        snd (BondFireplaceFan.async_set_speed_belief fp speed bond log) =
          log ++ [fp_power true])).
Proof.
  cbv zeta. repeat split.
  - cbn [BondFan.async_set_speed_belief Z.eqb]. rewrite fan_power_belief_run.
    reflexivity.
  - cbn [BondFireplaceFan.async_set_speed_belief Z.eqb].
    rewrite fireplace_power_belief_run. reflexivity.
  - intros Hs Hb. rewrite fan_speed_belief_run by exact Hs. rewrite Hb.
    reflexivity.
  - intros Hs Hne Hb.
    destruct (to_bond_percentage_ok fp speed Hs Hne) as (x & Hx & Hv).
    exists x. split; [exact Hx |].
    rewrite fireplace_speed_belief_run by lia.
    cbn [Z.b2z] in Hb. rewrite Hb, Hv. reflexivity.
  - intros [[code message] Hb]. rewrite fan_speed_belief_run by assumption.
    rewrite Hb. reflexivity.
  - intros [[code message] Hb]. rewrite fireplace_speed_belief_run by assumption.
    cbn [Z.b2z] in Hb. rewrite Hb. reflexivity.
Qed.

(** The spec's example: on a three-step fan [set_speed_belief(50)] makes the
    belief-power-true call and then the belief-speed call with step 2; on
    the fireplace fan with steps 33, 66, 100 the second call carries 66. *)
Lemma set_speed_belief_50_three_steps :
  calls_of (BondFan.async_set_speed_belief fan_1 50) bond_ok =
    [("fan-1", Action.set_power_state_belief true);
     ("fan-1", Action.set_speed_belief 2)]
  ∧ (∃ x,
       BondFireplaceFan._speeds fireplace_1 !! 1%nat = Some x
       ∧ calls_of (BondFireplaceFan.async_set_speed_belief fireplace_1 50) bond_ok =
           [("fp-1", Action.Action Action.SET_STATE_BELIEF
                       (Action.ArgSet {[ inl "fpfan_power"; inr 1 ]}));
            ("fp-1", Action.Action Action.SET_STATE_BELIEF
                       (Action.ArgSet {[ inl "fpfan_speed"; inr (Z.min 100 x) ]}))])
  ∧ calls_of (BondFan.async_set_speed_belief fan_1 50) bond_500 =
      [("fan-1", Action.set_power_state_belief true)].
Proof.
  destruct (set_speed_belief_dispatch fan_1 fireplace_1 bond_ok [] 50)
    as (_ & _ & Hfan & Hfp & _).
  destruct (set_speed_belief_dispatch fan_1 fireplace_1 bond_500 [] 50)
    as (_ & _ & _ & _ & Hfail).
  split; [| split].
  - apply Hfan; [lia | reflexivity].
  - apply Hfp; [lia | discriminate | reflexivity].
  - apply (proj1 (Hfail ltac:(lia))). eexists. reflexivity.
Defined.

(** ** Transport errors on the belief-state path *)

Lemma app_cons_singleton {A} (pre post : list A) (c d : A) :
  pre ++ c :: post = [d] → pre = [] ∧ c = d ∧ post = [].
Proof.
  destruct pre as [| a pre]; cbn.
  - intros [= -> <-]. auto.
  - intros [= _ H]. destruct pre; discriminate.
Qed.

Lemma app_cons_pair {A} (pre post : list A) (c d1 d2 : A) :
  pre ++ c :: post = [d1; d2] →
  (pre = [] ∧ c = d1) ∨ (pre = [d1] ∧ c = d2).
Proof.
  destruct pre as [| a pre]; cbn.
  - intros [= -> _]. auto.
  - intros [= -> H]. right.
    destruct (app_cons_singleton _ _ _ _ H) as (-> & -> & _). auto.
Qed.

(** The failing call of a coroutine that made one call, or two. *)
Ltac failing_call_of_one Hb :=
  let pre := fresh "pre" in let c := fresh "c" in let post := fresh "post" in
  let Hlog := fresh "Hlog" in
  intros code message (pre & c & post & Hlog & Hb); cbn [snd] in Hlog;
  apply app_inv_head in Hlog; symmetry in Hlog;
  apply app_cons_singleton in Hlog as (-> & -> & _);
  rewrite app_nil_r in Hb; unfold call in *.

Ltac failing_call_of_two Hb :=
  let pre := fresh "pre" in let c := fresh "c" in let post := fresh "post" in
  let Hlog := fresh "Hlog" in
  intros code message (pre & c & post & Hlog & Hb); cbn [snd] in Hlog;
  apply app_inv_head in Hlog; symmetry in Hlog;
  apply app_cons_pair in Hlog as [(-> & ->) | (-> & ->)];
  [rewrite app_nil_r in Hb |]; unfold call in *.

(** C7.  Whatever the hub answers, a belief-state coroutine of either
    adapter never lets a [ClientResponseError] through; and whenever the hub
    raised a transport error on one of its calls, the coroutine raises
    [HomeAssistantError] with a text that contains the error's code, the
    error's message and the entity id. *)
Theorem belief_transport_error_is_rewrapped
    (b : belief_call) (bond : Bond) (log : list call) :
  (∀ code message,
     fst (run_belief b bond log) ≠ Raise (ClientResponseError code message))
  ∧ (∀ code message,
       transport_error_during (run_belief b) bond log code message →
       ∃ what,
         let text := belief_error_text what (acting_entity b) code message in
         fst (run_belief b bond log) = Raise (HomeAssistantError text)
         ∧ contains (pretty code) text
         ∧ contains message text
         ∧ contains (acting_entity b) text).
Proof.
  assert (Hwrap : ∀ what code message,
            fst (run_belief b bond log) =
              Raise (HomeAssistantError
                       (belief_error_text what (acting_entity b) code message)) →
            ∃ what,
              let text := belief_error_text what (acting_entity b) code message in
              fst (run_belief b bond log) = Raise (HomeAssistantError text)
              ∧ contains (pretty code) text
              ∧ contains message text
              ∧ contains (acting_entity b) text).
  { intros what code message H. exists what. cbv zeta. split; [exact H |].
    apply belief_error_text_contains. }
  unfold transport_error_during.
  destruct b as [fan p | fan speed | fp p | fp speed]; cbn [run_belief acting_entity] in *.
  - rewrite fan_power_belief_run in *. split.
    + intros code message. cbn. destruct (bond log _) as [[c m]|]; discriminate.
    + failing_call_of_one Hb. eapply Hwrap. rewrite Hb. reflexivity.
  - destruct (Z.eq_dec speed 0) as [-> | Hs].
    { cbn [BondFan.async_set_speed_belief Z.eqb] in *.
      rewrite fan_power_belief_run in *. split.
      + intros code message. cbn. destruct (bond log _) as [[c m]|]; discriminate.
      + failing_call_of_one Hb. eapply Hwrap. rewrite Hb. reflexivity. }
    rewrite fan_speed_belief_run in * by exact Hs.
    destruct (bond log _) as [[c1 m1]|] eqn:E1.
    + split; [intros; discriminate |].
      failing_call_of_one Hb. rewrite E1 in Hb. injection Hb as -> ->.
      eapply Hwrap. reflexivity.
    + split.
      * intros code message. cbn. destruct (bond (log ++ _) _) as [[c m]|]; discriminate.
      * failing_call_of_two Hb.
        -- congruence.
        -- eapply Hwrap. rewrite Hb. reflexivity.
  - rewrite fireplace_power_belief_run in *. split.
    + intros code message. cbn. destruct (bond log _) as [[c m]|]; discriminate.
    + failing_call_of_one Hb. eapply Hwrap. rewrite Hb. reflexivity.
  - destruct (Z.eq_dec speed 0) as [-> | Hs].
    { cbn [BondFireplaceFan.async_set_speed_belief Z.eqb] in *.
      rewrite fireplace_power_belief_run in *. split.
      + intros code message. cbn. destruct (bond log _) as [[c m]|]; discriminate.
      + failing_call_of_one Hb. eapply Hwrap. rewrite Hb. reflexivity. }
    rewrite fireplace_speed_belief_run in * by exact Hs.
    destruct (bond log _) as [[c1 m1]|] eqn:E1.
    + split; [intros; discriminate |].
      failing_call_of_one Hb. rewrite E1 in Hb. injection Hb as -> ->.
      eapply Hwrap. reflexivity.
    + destruct (BondFireplaceFan._to_bond_percentage fp speed) as [v | e] eqn:Ev.
      * cbv zeta in *. split.
        -- intros code message. cbn.
           destruct (bond (log ++ _) _) as [[c m]|]; discriminate.
        -- failing_call_of_two Hb.
           ++ congruence.
           ++ eapply Hwrap. rewrite Hb. reflexivity.
      * rewrite (to_bond_percentage_raises _ _ _ Ev). split; [intros; discriminate |].
        failing_call_of_one Hb. congruence.
Qed.

(** The spec's example: a hub answering 500 on the belief-speed call
    surfaces as a [HomeAssistantError] whose text contains the code 500, the
    hub's message and the entity id. *)
Lemma belief_error_500_is_rewrapped :
  ∃ what,
    let text := belief_error_text what "fan.fan_1" 500 "Internal Server Error" in
    outcome_of (BondFan.async_set_speed_belief fan_1 50) bond_second_500 =
      Raise (HomeAssistantError text)
    ∧ contains "500" text
    ∧ contains "Internal Server Error" text
    ∧ contains "fan.fan_1" text.
Proof.
  apply (proj2 (belief_transport_error_is_rewrapped
                  (FanSpeedBelief fan_1 50) bond_second_500 [])
           500 "Internal Server Error").
  exists [("fan-1", Action.set_power_state_belief true)],
    ("fan-1", Action.set_speed_belief 2), [].
  split; reflexivity.
Defined.

(** ** The step table *)

Lemma StronglySorted_le_NoDup_lt (l : list Z) :
  StronglySorted Z.le l → NoDup l → StronglySorted Z.lt l.
Proof.
  induction 1 as [| x l Hs IH Hall]; intros Hnd; [constructor |].
  apply NoDup_cons in Hnd as [Hx Hnd].
  constructor; [apply IH, Hnd |].
  rewrite Forall_forall in Hall |- *.
  intros y Hy. specialize (Hall y Hy).
  assert (x ≠ y) by (intros ->; apply Hx, Hy). lia.
Qed.

Lemma StronglySorted_lt_NoDup (l : list Z) : StronglySorted Z.lt l → NoDup l.
Proof.
  induction 1 as [| x l Hs IH Hall]; [constructor |].
  apply NoDup_cons. split; [| exact IH].
  intros Hx. rewrite Forall_forall in Hall. specialize (Hall x Hx). lia.
Qed.

(** C8, as stated, fails on a command list that repeats an argument: the
    table keeps both copies, so it has a duplicate and is not strictly
    ascending. *)
Lemma step_table_keeps_repeated_argument :
  let table :=
    BondFireplaceFan._speeds
      (BondFireplaceFan.__init__ (fireplace_device [50; 100; 50]) "fan.fp_2") in
  table = [50; 50; 100] ∧ ¬ NoDup table ∧ ¬ StronglySorted Z.lt table.
Proof.
  cbv zeta.
  assert (E : BondFireplaceFan._speeds
                (BondFireplaceFan.__init__ (fireplace_device [50; 100; 50]) "fan.fp_2")
              = [50; 50; 100]) by (vm_compute; reflexivity).
  rewrite E. split; [reflexivity |].
  assert (Hd : ¬ NoDup [50; 50; 100]).
  { intros H. apply NoDup_cons in H as [H _]. apply H. left. }
  split; [exact Hd |].
  intros H. apply Hd, StronglySorted_lt_NoDup, H.
Qed.

(** C8, amended.  The step table built by [__init__] is the ascending
    (non-decreasing) rearrangement of the arguments of the device's
    [SET_FP_FAN] commands; it is strictly ascending and free of duplicates
    when those arguments are pairwise distinct. *)
Theorem step_table_sorted (device : BondDevice) (entity_id : string) :
  let arguments := map cmd_argument (find_commands device Action.SET_FP_FAN) in
  let table := BondFireplaceFan._speeds (BondFireplaceFan.__init__ device entity_id) in
  StronglySorted Z.le table
  ∧ table ≡ₚ arguments
  ∧ (NoDup arguments → StronglySorted Z.lt table ∧ NoDup table).
Proof.
  cbv zeta. cbn [BondFireplaceFan.__init__ BondFireplaceFan._speeds]. unfold sorted.
  set (arguments := map cmd_argument (find_commands device Action.SET_FP_FAN)).
  assert (Hs : StronglySorted Z.le (merge_sort Z.le arguments))
    by apply (StronglySorted_merge_sort Z.le).
  assert (Hp : merge_sort Z.le arguments ≡ₚ arguments)
    by apply merge_sort_Permutation.
  split; [exact Hs |]. split; [exact Hp |].
  intros Hnd.
  assert (Hnd' : NoDup (merge_sort Z.le arguments)) by (rewrite Hp; exact Hnd).
  split; [apply StronglySorted_le_NoDup_lt; assumption | exact Hnd'].
Qed.

(** The spec's example table: the arguments 100, 33, 66 give the strictly
    ascending table 33, 66, 100. *)
Lemma step_table_33_66_100 :
  BondFireplaceFan._speeds fireplace_1 = [33; 66; 100]
  ∧ StronglySorted Z.lt (BondFireplaceFan._speeds fireplace_1)
  ∧ NoDup (BondFireplaceFan._speeds fireplace_1).
Proof.
  split; [vm_compute; reflexivity |].
  apply (proj2 (proj2 (step_table_sorted (fireplace_device [100; 33; 66]) "fan.fp_1"))).
  assert (E : map cmd_argument
                (find_commands (fireplace_device [100; 33; 66]) Action.SET_FP_FAN)
              = [100; 33; 66]) by (vm_compute; reflexivity).
  rewrite E. apply (bool_decide_unpack _). vm_compute. exact I.
Defined.

(** ** Vendor value to percentage *)

(** [l.index(v)] either finds the first position of [v], or [v] is not in
    the list and [ValueError] is raised. *)
Lemma list_index_from_spec (l : list Z) (v k : Z) :
  match list_index_from l (VInt v) k with
  | Ok i =>
      ∃ n : nat, i = k + Z.of_nat n ∧ l !! n = Some v
                 ∧ ∀ j : nat, (j < n)%nat → l !! j ≠ Some v
  | Raise e => (v ∉ l) ∧ (∃ msg, e = ValueError msg)
  end.
Proof.
  revert k. induction l as [| x l IH]; intros k; cbn [list_index_from].
  - split; [apply not_elem_of_nil | eauto].
  - cbn [py_eq_int]. destruct (v =? x) eqn:E.
    + apply Z.eqb_eq in E as ->. exists 0%nat.
      split; [lia |]. split; [reflexivity |]. intros j Hj. lia.
    + apply Z.eqb_neq in E. specialize (IH (k + 1)).
      destruct (list_index_from l (VInt v) (k + 1)) as [i | e].
      * destruct IH as (n & -> & Hn & Hfirst). exists (S n).
        split; [lia |]. split; [exact Hn |].
        intros [| j] Hj; cbn; [congruence | apply Hfirst; lia].
      * destruct IH as [Hnot Hmsg]. split; [| exact Hmsg].
        rewrite not_elem_of_cons. auto.
Qed.

Lemma ranged_value_to_percentage_ok (n value : Z) :
  1 ≤ n → ranged_value_to_percentage (1, n) value = Ok ((value * 100) / n).
Proof.
  intros Hn. unfold ranged_value_to_percentage, states_in_range. cbn [fst snd].
  replace (n - 1 + 1) with n by lia.
  replace (n =? 0) with false by (symmetry; apply Z.eqb_neq; lia).
  replace (value - (1 - 1)) with value by lia. reflexivity.
Qed.

(** A nonzero vendor value found at index [i] is converted by handing
    [i + 1] to [ranged_value_to_percentage] and clamping to [[0, 100]]. *)
Lemma from_bond_percentage_index (fp : BondFireplaceFan.t) (v i : Z) :
  v ≠ 0 →
  list_index (BondFireplaceFan._speeds fp) (VInt v) = Ok i →
  BondFireplaceFan._from_bond_percentage fp (Some (VInt v)) =
    rbind (ranged_value_to_percentage (BondFireplaceFan._speed_range fp) (i + 1))
          (λ p, Ok (Z.min 100 (Z.max 0 p))).
Proof.
  intros Hv Hi. unfold BondFireplaceFan._from_bond_percentage.
  cbn [truthy]. rewrite (proj2 (Z.eqb_neq v 0) Hv). cbn [negb].
  rewrite Hi. reflexivity.
Qed.

(** The conversion of a nonzero vendor value found at first position [n]. *)
Lemma from_bond_percentage_found (fp : BondFireplaceFan.t) (v : Z) (n : nat) :
  v ≠ 0 →
  list_index (BondFireplaceFan._speeds fp) (VInt v) = Ok (Z.of_nat n) →
  BondFireplaceFan._speeds fp !! n = Some v →
  BondFireplaceFan._from_bond_percentage fp (Some (VInt v)) =
    Ok (Z.min 100 (Z.max 0
          (((Z.of_nat n + 1) * 100) / Z.of_nat (length (BondFireplaceFan._speeds fp))))).
Proof.
  intros Hv Hi Hn. rewrite (from_bond_percentage_index fp v _ Hv Hi).
  unfold BondFireplaceFan._speed_range.
  apply lookup_lt_Some in Hn.
  rewrite ranged_value_to_percentage_ok by lia. reflexivity.
Qed.

(** C9.  For a nonzero vendor value [v]: when [v] is not in the step table,
    [_from_bond_percentage] raises ([ValueError], from [list.index]) and
    applying a snapshot that reports [v] raises too, leaving the stored
    speed as it was; when [v] is in the table, the conversion finds the
    first position [i] holding exactly [v] and returns what
    [ranged_value_to_percentage] makes of step [i + 1], clamped to
    [[0, 100]]. *)
Theorem from_bond_percentage_exact_index (fp : BondFireplaceFan.t) (v : Z) :
  v ≠ 0 →
  let table := BondFireplaceFan._speeds fp in
  (v ∉ table →
     (∃ msg, BondFireplaceFan._from_bond_percentage fp (Some (VInt v))
             = Raise (ValueError msg))
     ∧ ∀ st : gmap string value, st !! "fpfan_speed" = Some (VInt v) →
         (∃ msg, fst (BondFireplaceFan.apply_snapshot fp st) = Raise (ValueError msg))
         ∧ BondFireplaceFan._speed (snd (BondFireplaceFan.apply_snapshot fp st))
           = BondFireplaceFan._speed fp)
  ∧ (v ∈ table →
     ∃ i : nat,
       table !! i = Some v
       ∧ (∀ j : nat, (j < i)%nat → table !! j ≠ Some v)
       ∧ list_index table (VInt v) = Ok (Z.of_nat i)
       ∧ BondFireplaceFan._from_bond_percentage fp (Some (VInt v)) =
           rbind (ranged_value_to_percentage (BondFireplaceFan._speed_range fp)
                    (Z.of_nat i + 1))
                 (λ p, Ok (Z.min 100 (Z.max 0 p)))
       ∧ BondFireplaceFan._from_bond_percentage fp (Some (VInt v)) =
           Ok (Z.min 100 (Z.max 0
                 (((Z.of_nat i + 1) * 100) / Z.of_nat (length table))))).
Proof.
  intros Hv. cbv zeta.
  pose proof (list_index_from_spec (BondFireplaceFan._speeds fp) v 0) as Hspec.
  fold (list_index (BondFireplaceFan._speeds fp) (VInt v)) in Hspec.
  split.
  - intros Hnot.
    assert (Hraise : ∀ fp', BondFireplaceFan._speeds fp' = BondFireplaceFan._speeds fp →
              ∃ msg, BondFireplaceFan._from_bond_percentage fp' (Some (VInt v))
                     = Raise (ValueError msg)).
    { intros fp' Eq. unfold BondFireplaceFan._from_bond_percentage.
      cbn [truthy]. rewrite (proj2 (Z.eqb_neq v 0) Hv). cbn [negb]. rewrite Eq.
      destruct (list_index (BondFireplaceFan._speeds fp) (VInt v)) as [i | e].
      - destruct Hspec as (n & _ & Hn & _).
        exfalso. apply Hnot. eapply list_elem_of_lookup_2, Hn.
      - destruct Hspec as (_ & msg & ->). exists msg. reflexivity. }
    split; [apply Hraise; reflexivity |].
    intros st Hst.
    unfold BondFireplaceFan.apply_snapshot, BondFireplaceFan._apply_state.
    cbn [BondFireplaceFan._device with_state state BondFireplaceFan._speeds
         BondFireplaceFan._speed BondFireplaceFan.entity_id].
    rewrite Hst.
    match goal with
    | |- context [BondFireplaceFan._from_bond_percentage ?x _] =>
        destruct (Hraise x eq_refl) as (msg & ->)
    end.
    split; [exists msg |]; reflexivity.
  - intros Hin.
    destruct (list_index (BondFireplaceFan._speeds fp) (VInt v)) as [i | e] eqn:Ei.
    + destruct Hspec as (n & -> & Hn & Hfirst). exists n.
      split; [exact Hn |]. split; [exact Hfirst |]. split; [reflexivity |].
      split; [apply from_bond_percentage_index; assumption |].
      apply from_bond_percentage_found; assumption.
    + destruct Hspec as (Hnot & _). contradiction.
Qed.

(** On the table 33, 66, 100: the value 50 is not a step and raises; the
    value 66 is found at index 1 and maps to 66 %. *)
Lemma from_bond_percentage_50_and_66 :
  (∃ msg, BondFireplaceFan._from_bond_percentage fireplace_1 (Some (VInt 50))
          = Raise (ValueError msg))
  ∧ (∃ i : nat,
       BondFireplaceFan._speeds fireplace_1 !! i = Some 66
       ∧ BondFireplaceFan._from_bond_percentage fireplace_1 (Some (VInt 66)) =
           Ok (Z.min 100 (Z.max 0 (((Z.of_nat i + 1) * 100) / 3)))).
Proof.
  split.
  - apply (proj1 (from_bond_percentage_exact_index fireplace_1 50 ltac:(lia))).
    apply (bool_decide_unpack _). vm_compute. exact I.
  - destruct (proj2 (from_bond_percentage_exact_index fireplace_1 66 ltac:(lia)))
      as (i & Hi & _ & _ & _ & Hr).
    + apply (bool_decide_unpack _). vm_compute. exact I.
    + exists i. split; [exact Hi | exact Hr].
Defined.

(** ** Round trip through the step table *)

(** The composition [_to_bond_percentage(_from_bond_percentage(v))]. *)
Lemma round_trip_unfold (fp : BondFireplaceFan.t) (v : Z) :
  rbind (BondFireplaceFan._from_bond_percentage fp (Some (VInt v)))
        (BondFireplaceFan._to_bond_percentage fp)
  = match BondFireplaceFan._from_bond_percentage fp (Some (VInt v)) with
    | Ok p => BondFireplaceFan._to_bond_percentage fp p
    | Raise e => Raise e
    end.
Proof. reflexivity. Qed.

(** C3, as stated, fails in two ways.  A table member above 100 comes back
    capped at 100: on the table 50, 150 the value 150 returns as 100.  And
    on a table of more than 100 steps the first step maps to 0 %, which
    converts back to 0: on the table 1, 2, ..., 101 the value 1 returns
    as 0. *)
Lemma round_trip_fails_above_100 :
  let fp := BondFireplaceFan.__init__ (fireplace_device [150; 50]) "fan.fp_3" in
  let fp' := BondFireplaceFan.__init__
               (fireplace_device (map Z.of_nat (seq 1 101))) "fan.fp_4" in
  BondFireplaceFan._speeds fp = [50; 150]
  ∧ rbind (BondFireplaceFan._from_bond_percentage fp (Some (VInt 150)))
          (BondFireplaceFan._to_bond_percentage fp) = Ok 100
  ∧ BondFireplaceFan._speeds fp' !! 0%nat = Some 1
  ∧ length (BondFireplaceFan._speeds fp') = 101%nat
  ∧ BondFireplaceFan._from_bond_percentage fp' (Some (VInt 1)) = Ok 0
  ∧ rbind (BondFireplaceFan._from_bond_percentage fp' (Some (VInt 1)))
          (BondFireplaceFan._to_bond_percentage fp') = Ok 0.
Proof.
  cbv zeta. repeat split; vm_compute; reflexivity.
Qed.

(** C3, amended.  On a step table of at most 100 entries, for every member
    [v] of the table: converting [v] to a percentage with
    [_from_bond_percentage] and back with [_to_bond_percentage] returns
    [min(100, v)], hence [v] itself when [v <= 100]; and for every nonzero
    member, above 100 or not, the table index is recovered: the step
    selected on the way back is [i + 1], where [i] is the index
    [_from_bond_percentage] found for [v], and the table entry of that step
    is [v]. *)
Theorem step_table_round_trip (fp : BondFireplaceFan.t) (v : Z) :
  let table := BondFireplaceFan._speeds fp in
  (length table ≤ 100)%nat → v ∈ table →
  rbind (BondFireplaceFan._from_bond_percentage fp (Some (VInt v)))
        (BondFireplaceFan._to_bond_percentage fp) = Ok (Z.min 100 v)
  ∧ (v ≤ 100 →
     rbind (BondFireplaceFan._from_bond_percentage fp (Some (VInt v)))
           (BondFireplaceFan._to_bond_percentage fp) = Ok v)
  ∧ (v ≠ 0 →
     ∃ (i : nat) (p : Z),
       list_index table (VInt v) = Ok (Z.of_nat i)
       ∧ table !! i = Some v
       ∧ BondFireplaceFan._from_bond_percentage fp (Some (VInt v)) = Ok p
       ∧ percentage_to_step (BondFireplaceFan._speed_range fp) p = Z.of_nat i + 1
       ∧ py_getitem table
           (percentage_to_step (BondFireplaceFan._speed_range fp) p - 1) = Ok v).
Proof.
  cbv zeta. intros Hlen Hin.
  assert (Hcap : rbind (BondFireplaceFan._from_bond_percentage fp (Some (VInt v)))
                       (BondFireplaceFan._to_bond_percentage fp) = Ok (Z.min 100 v)
                 → v ≤ 100 →
                 rbind (BondFireplaceFan._from_bond_percentage fp (Some (VInt v)))
                       (BondFireplaceFan._to_bond_percentage fp) = Ok v).
  { intros H Hle. rewrite H. f_equal. lia. }
  destruct (Z.eq_dec v 0) as [-> | Hv].
  { split; [reflexivity |]. split; [reflexivity | congruence]. }
  pose proof (list_index_from_spec (BondFireplaceFan._speeds fp) v 0) as Hspec.
  fold (list_index (BondFireplaceFan._speeds fp) (VInt v)) in Hspec.
  destruct (list_index (BondFireplaceFan._speeds fp) (VInt v)) as [i | e] eqn:Ei;
    [| destruct Hspec as (Hnot & _); contradiction].
  destruct Hspec as (n & -> & Hn & _). rewrite Z.add_0_l in Ei.
  pose proof (from_bond_percentage_found fp v n Hv Ei Hn) as Hfrom.
  pose proof (lookup_lt_Some _ _ _ Hn) as Hlt.
  set (N := Z.of_nat (length (BondFireplaceFan._speeds fp))) in *.
  set (q := ((Z.of_nat n + 1) * 100) / N) in *.
  assert (HN : 1 ≤ N ≤ 100) by (unfold N; lia).
  assert (Hq : N * q ≤ (Z.of_nat n + 1) * 100 < N * q + N).
  { pose proof (Z.div_mod ((Z.of_nat n + 1) * 100) N ltac:(lia)) as Hdm.
    pose proof (Z.mod_pos_bound ((Z.of_nat n + 1) * 100) N ltac:(lia)) as Hm.
    fold q in Hdm. lia. }
  assert (Hq1 : 1 ≤ q ≤ 100) by (unfold N in *; nia).
  assert (Hclamp : Z.min 100 (Z.max 0 q) = q) by lia.
  rewrite Hclamp in Hfrom.
  assert (Hstep : percentage_to_step (BondFireplaceFan._speed_range fp) q
                  = Z.of_nat n + 1).
  { unfold BondFireplaceFan._speed_range. fold N.
    apply percentage_to_step_unique. unfold N in *. nia. }
  assert (Hget : py_getitem (BondFireplaceFan._speeds fp) (Z.of_nat n + 1 - 1) = Ok v).
  { destruct (py_getitem_in_range (BondFireplaceFan._speeds fp) (Z.of_nat n + 1 - 1))
      as (x & Hx & Hg); [fold N; lia |].
    replace (Z.to_nat (Z.of_nat n + 1 - 1)) with n in Hx by lia.
    rewrite Hn in Hx. injection Hx as <-. exact Hg. }
  assert (Hrt : rbind (BondFireplaceFan._from_bond_percentage fp (Some (VInt v)))
                      (BondFireplaceFan._to_bond_percentage fp) = Ok (Z.min 100 v)).
  { rewrite round_trip_unfold, Hfrom. unfold BondFireplaceFan._to_bond_percentage.
    replace (q =? 0) with false by (symmetry; apply Z.eqb_neq; lia).
    rewrite Hstep, Hget. reflexivity. }
  split; [exact Hrt |]. split; [exact (Hcap Hrt) |].
  intros _. exists n, q. rewrite Hstep. auto 10.
Qed.

(** On the table 33, 66, 100 the value 66 survives the round trip, found
    at index 1 and coming back through step 2; on the table 50, 150 the
    value 150 comes back capped at 100, yet its index is recovered. *)
Lemma step_table_round_trip_66 :
  rbind (BondFireplaceFan._from_bond_percentage fireplace_1 (Some (VInt 66)))
        (BondFireplaceFan._to_bond_percentage fireplace_1) = Ok 66
  ∧ (∃ (i : nat) (p : Z),
       list_index (BondFireplaceFan._speeds fireplace_1) (VInt 66) = Ok (Z.of_nat i)
       ∧ BondFireplaceFan._speeds fireplace_1 !! i = Some 66
       ∧ BondFireplaceFan._from_bond_percentage fireplace_1 (Some (VInt 66)) = Ok p
       ∧ percentage_to_step (BondFireplaceFan._speed_range fireplace_1) p
         = Z.of_nat i + 1
       ∧ py_getitem (BondFireplaceFan._speeds fireplace_1)
           (percentage_to_step (BondFireplaceFan._speed_range fireplace_1) p - 1)
         = Ok 66)
  ∧ (let fp := BondFireplaceFan.__init__ (fireplace_device [150; 50]) "fan.fp_3" in
     rbind (BondFireplaceFan._from_bond_percentage fp (Some (VInt 150)))
           (BondFireplaceFan._to_bond_percentage fp) = Ok (Z.min 100 150)
     ∧ ∃ (i : nat) (p : Z),
         list_index (BondFireplaceFan._speeds fp) (VInt 150) = Ok (Z.of_nat i)
         ∧ BondFireplaceFan._speeds fp !! i = Some 150
         ∧ BondFireplaceFan._from_bond_percentage fp (Some (VInt 150)) = Ok p
         ∧ percentage_to_step (BondFireplaceFan._speed_range fp) p = Z.of_nat i + 1
         ∧ py_getitem (BondFireplaceFan._speeds fp)
             (percentage_to_step (BondFireplaceFan._speed_range fp) p - 1)
           = Ok 150).
Proof.
  destruct (step_table_round_trip fireplace_1 66) as (_ & Hrt & Hidx).
  - vm_compute. lia.
  - apply (bool_decide_unpack _). vm_compute. exact I.
  - destruct (step_table_round_trip
                (BondFireplaceFan.__init__ (fireplace_device [150; 50]) "fan.fp_3") 150)
      as (Hcap & _ & Hidx').
    + vm_compute. lia.
    + apply (bool_decide_unpack _). vm_compute. exact I.
    + split; [apply Hrt; lia |]. split; [apply Hidx; lia |].
      cbv zeta. split; [exact Hcap | apply Hidx'; lia].
Defined.

(** ** The belief-state payload of the fireplace fan *)

(** C10.  The argument of the fireplace belief calls is the two-element set
    of the field name and the value, not a mapping from the field name to
    the value: [set_power_belief(power_state)] always sends the set of
    ["fpfan_power"] and [int(power_state)], and [set_speed_belief(50)] on
    the table 33, 66, 100 sends the set of ["fpfan_speed"] and 66. *)
Theorem fireplace_belief_argument_is_a_set
    (fp : BondFireplaceFan.t) (power_state : bool) (bond : Bond) (log : list call) :
  let sent :=
    Action.Action Action.SET_STATE_BELIEF
      (Action.ArgSet {[ inl "fpfan_power"; inr (Z.b2z power_state) ]}) in
  let intended :=
    Action.Action Action.SET_STATE_BELIEF
      (Action.ArgDict {[ "fpfan_power" := Z.b2z power_state ]}) in
  snd (BondFireplaceFan.async_set_power_belief fp power_state bond log) =
    log ++ [(device_id (BondFireplaceFan._device fp), sent)]
  ∧ sent ≠ intended
  ∧ calls_of (BondFireplaceFan.async_set_speed_belief fireplace_1 50) bond_ok =
      [("fp-1", Action.Action Action.SET_STATE_BELIEF
                  (Action.ArgSet {[ inl "fpfan_power"; inr 1 ]}));
       ("fp-1", Action.Action Action.SET_STATE_BELIEF
                  (Action.ArgSet {[ inl "fpfan_speed"; inr 66 ]}))]
  ∧ calls_of (BondFireplaceFan.async_set_speed_belief fireplace_1 50) bond_ok ≠
      [("fp-1", Action.Action Action.SET_STATE_BELIEF
                  (Action.ArgDict {[ "fpfan_power" := 1 ]}));
       ("fp-1", Action.Action Action.SET_STATE_BELIEF
                  (Action.ArgDict {[ "fpfan_speed" := 66 ]}))].
Proof.
  cbv zeta. split; [rewrite fireplace_power_belief_run; reflexivity |].
  split; [discriminate |].
  split; [vm_compute; reflexivity |].
  vm_compute. discriminate.
Qed.

(** ** The standard fan: speed sent and percentage shown *)

Lemma fan_apply_snapshot_fields (fan : BondFan.t) (st : gmap string value) :
  let fan' := snd (BondFan.apply_snapshot fan st) in
  BondFan._power fan' = st !! "power"
  ∧ BondFan._speed fan' = st !! "speed"
  ∧ BondFan._direction fan' = st !! "direction"
  ∧ BondFan._device fan' = with_state (BondFan._device fan) st
  ∧ BondFan.entity_id fan' = BondFan.entity_id fan
  ∧ BondFan._attr_preset_modes fan' = BondFan._attr_preset_modes fan.
Proof.
  cbv zeta. unfold BondFan.apply_snapshot, BondFan._apply_state. cbn.
  destruct (BondFan.breeze_head st); cbn; auto 10.
Qed.

Lemma fan_apply_snapshot_speed_range (fan : BondFan.t) (st : gmap string value) :
  BondFan._speed_range (snd (BondFan.apply_snapshot fan st)) = BondFan._speed_range fan.
Proof.
  unfold BondFan._speed_range.
  destruct (fan_apply_snapshot_fields fan st) as (_ & _ & _ & -> & _). reflexivity.
Qed.

(** The percentage of a fan that is on at speed [s]. *)
Lemma fan_percentage_on (fan : BondFan.t) (s : Z) :
  truthy (BondFan._power fan) = true → BondFan._speed fan = Some (VInt s) →
  s ≠ 0 → 1 ≤ snd (BondFan._speed_range fan) →
  BondFan.percentage fan =
    Ok (Z.min 100 (Z.max 0 ((s * 100) / snd (BondFan._speed_range fan)))).
Proof.
  intros Hp Hs Hs0 Hn. unfold BondFan.percentage. rewrite Hp, Hs. cbn [truthy].
  rewrite (proj2 (Z.eqb_neq s 0) Hs0). cbn [negb orb as_int rbind].
  change (BondFan._speed_range fan) with (1, snd (BondFan._speed_range fan)) at 1.
  rewrite ranged_value_to_percentage_ok by exact Hn. reflexivity.
Qed.

(** X1.  For a percentage in [[1, 100]] on a fan whose range has at least
    one speed, [async_set_percentage] makes exactly one call, [set_speed]
    with a speed inside the device's range, and its outcome is the hub's
    answer to that call. *)
Theorem fan_set_percentage_sends_speed_in_range
    (fan : BondFan.t) (p : Z) (bond : Bond) (log : list call) :
  1 ≤ p ≤ 100 → 1 ≤ snd (BondFan._speed_range fan) →
  ∃ s,
    1 ≤ s ≤ snd (BondFan._speed_range fan)
    ∧ s = percentage_to_step (BondFan._speed_range fan) p
    ∧ snd (BondFan.async_set_percentage fan p bond log) =
        log ++ [(device_id (BondFan._device fan), Action.set_speed s)]
    ∧ fst (BondFan.async_set_percentage fan p bond log) =
        match bond log (device_id (BondFan._device fan), Action.set_speed s) with
        | None => Ok tt
        | Some (code, message) => Raise (ClientResponseError code message)
        end.
Proof.
  intros Hp Hn. exists (percentage_to_step (BondFan._speed_range fan) p).
  split; [apply (percentage_to_step_range _ p Hn Hp) |]. split; [reflexivity |].
  unfold BondFan.async_set_percentage.
  replace (p =? 0) with false by (symmetry; apply Z.eqb_neq; lia).
  rewrite bond_action_run. split; reflexivity.
Qed.

Lemma fan_set_percentage_50_sends_2 :
  ∃ s, 1 ≤ s ≤ 3
       ∧ s = percentage_to_step (1, 3) 50
       ∧ snd (BondFan.async_set_percentage fan_1 50 bond_500 []) =
           [("fan-1", Action.set_speed s)]
       ∧ fst (BondFan.async_set_percentage fan_1 50 bond_500 []) =
           Raise (ClientResponseError 500 "Internal Server Error").
Proof.
  apply (fan_set_percentage_sends_speed_in_range fan_1 50 bond_500 []);
    [lia | vm_compute; discriminate].
Defined.

(** X2.  When the hub reports the fan on at the speed that
    [async_set_percentage(p)] sent, the percentage shown is never below
    [p] and exceeds it by less than one step of the range:
    [p <= q <= 100] and [n * (q - p) < 100] for a range of [n] speeds. *)
Theorem fan_percentage_after_set_percentage
    (fan : BondFan.t) (p : Z) (st : gmap string value) :
  let n := snd (BondFan._speed_range fan) in
  1 ≤ p ≤ 100 → 1 ≤ n →
  truthy (st !! "power") = true →
  st !! "speed" = Some (VInt (percentage_to_step (BondFan._speed_range fan) p)) →
  ∃ q, BondFan.percentage (snd (BondFan.apply_snapshot fan st)) = Ok q
       ∧ p ≤ q ≤ 100 ∧ n * (q - p) < 100.
Proof.
  cbv zeta. intros Hp Hn Hpow Hspeed.
  set (n := snd (BondFan._speed_range fan)) in *.
  set (s := percentage_to_step (BondFan._speed_range fan) p) in *.
  assert (Hs : 1 ≤ s ≤ n) by apply (percentage_to_step_range _ p Hn Hp).
  pose proof (percentage_to_step_bounds n p) as Hb. cbv zeta in Hb.
  change (percentage_to_step (1, n) p) with s in Hb.
  destruct (fan_apply_snapshot_fields fan st) as (Hpw & Hsp & _).
  rewrite (fan_percentage_on _ s); rewrite ?fan_apply_snapshot_speed_range;
    [| rewrite Hpw; exact Hpow | rewrite Hsp; exact Hspeed | lia | exact Hn].
  fold n.
  pose proof (Z.div_mod (s * 100) n ltac:(lia)) as Hdm.
  pose proof (Z.mod_pos_bound (s * 100) n ltac:(lia)) as Hm.
  set (q := (s * 100) / n) in *.
  assert (Hq : p ≤ q ≤ 100) by nia.
  exists (Z.min 100 (Z.max 0 q)).
  split; [reflexivity |]. split; [lia |].
  replace (Z.min 100 (Z.max 0 q)) with q by lia. nia.
Qed.

Lemma fan_percentage_after_set_percentage_50 :
  ∃ q, BondFan.percentage
         (snd (BondFan.apply_snapshot fan_1
                 {[ "power" := VBool true; "speed" := VInt 2 ]})) = Ok q
       ∧ 50 ≤ q ≤ 100 ∧ 3 * (q - 50) < 100.
Proof.
  apply (fan_percentage_after_set_percentage fan_1 50
           {[ "power" := VBool true; "speed" := VInt 2 ]});
    [lia | vm_compute; discriminate | reflexivity | reflexivity].
Defined.

(** X3.  On a range of at most 100 speeds, the percentage shown for a
    reported speed [s] of the range selects [s] again: sending the shown
    percentage back with [async_set_percentage] sends [set_speed(s)]. *)
Theorem fan_shown_percentage_selects_reported_speed
    (fan : BondFan.t) (s : Z) (st : gmap string value) (bond : Bond) (log : list call) :
  let n := snd (BondFan._speed_range fan) in
  let fan' := snd (BondFan.apply_snapshot fan st) in
  n ≤ 100 → 1 ≤ s ≤ n →
  truthy (st !! "power") = true → st !! "speed" = Some (VInt s) →
  ∃ q, BondFan.percentage fan' = Ok q
       ∧ 1 ≤ q ≤ 100
       ∧ snd (BondFan.async_set_percentage fan' q bond log) =
           log ++ [(device_id (BondFan._device fan), Action.set_speed s)].
Proof.
  cbv zeta. intros Hn Hs Hpow Hspeed.
  set (n := snd (BondFan._speed_range fan)) in *.
  destruct (fan_apply_snapshot_fields fan st) as (Hpw & Hsp & _ & Hdev & _).
  rewrite (fan_percentage_on _ s); rewrite ?fan_apply_snapshot_speed_range;
    [| rewrite Hpw; exact Hpow | rewrite Hsp; exact Hspeed | lia | fold n; lia].
  fold n.
  pose proof (Z.div_mod (s * 100) n ltac:(lia)) as Hdm.
  pose proof (Z.mod_pos_bound (s * 100) n ltac:(lia)) as Hm.
  set (q := (s * 100) / n) in *.
  assert (Hq : 1 ≤ q ≤ 100) by nia.
  exists (Z.min 100 (Z.max 0 q)). replace (Z.min 100 (Z.max 0 q)) with q by lia.
  split; [reflexivity |]. split; [exact Hq |].
  unfold BondFan.async_set_percentage.
  replace (q =? 0) with false by (symmetry; apply Z.eqb_neq; lia).
  rewrite bond_action_run, fan_apply_snapshot_speed_range, Hdev. cbn [snd with_state device_id].
  change (BondFan._speed_range fan) with (1, n).
  rewrite (percentage_to_step_unique n q s) by nia. reflexivity.
Qed.

Lemma fan_shown_percentage_66_selects_speed_2 :
  ∃ q, BondFan.percentage
         (snd (BondFan.apply_snapshot fan_1
                 {[ "power" := VBool true; "speed" := VInt 2 ]})) = Ok q
       ∧ 1 ≤ q ≤ 100
       ∧ snd (BondFan.async_set_percentage
                (snd (BondFan.apply_snapshot fan_1
                        {[ "power" := VBool true; "speed" := VInt 2 ]}))
                q bond_ok []) =
           [("fan-1", Action.set_speed 2)].
Proof.
  apply (fan_shown_percentage_selects_reported_speed fan_1 2
           {[ "power" := VBool true; "speed" := VInt 2 ]} bond_ok []);
    [vm_compute; discriminate | vm_compute; split; discriminate
    | reflexivity | reflexivity].
Defined.

(** ** The fireplace fan: vendor value sent *)

Lemma to_bond_percentage_empty_table (fp : BondFireplaceFan.t) (p : Z) :
  BondFireplaceFan._speeds fp = [] → p ≠ 0 →
  BondFireplaceFan._to_bond_percentage fp p = Raise IndexError.
Proof.
  intros He Hp. unfold BondFireplaceFan._to_bond_percentage.
  rewrite (proj2 (Z.eqb_neq p 0) Hp).
  unfold BondFireplaceFan._speed_range. rewrite He. cbn [length Z.of_nat].
  rewrite percentage_to_step_eq. reflexivity.
Qed.

(** X4.  [async_set_percentage] of the fireplace fan: for a percentage in
    [[1, 100]] and a non-empty step table it makes exactly one call,
    [SET_FP_FAN] with an entry of the table capped at 100; with an empty
    step table every nonzero percentage raises [IndexError] before any call
    is made. *)
Theorem fireplace_set_percentage_dispatch
    (fp : BondFireplaceFan.t) (p : Z) (bond : Bond) (log : list call) :
  (1 ≤ p ≤ 100 → BondFireplaceFan._speeds fp ≠ [] →
   ∃ x, x ∈ BondFireplaceFan._speeds fp
        ∧ snd (BondFireplaceFan.async_set_percentage fp p bond log) =
            log ++ [(device_id (BondFireplaceFan._device fp),
                     Action.Action Action.SET_FP_FAN (Action.ArgInt (Z.min 100 x)))])
  ∧ (p ≠ 0 → BondFireplaceFan._speeds fp = [] →
     BondFireplaceFan.async_set_percentage fp p bond log = (Raise IndexError, log)).
Proof.
  split.
  - intros Hp Hne.
    destruct (to_bond_percentage_ok fp p Hp Hne) as (x & Hx & Hv).
    exists x. split; [eapply list_elem_of_lookup_2, Hx |].
    unfold BondFireplaceFan.async_set_percentage.
    replace (p =? 0) with false by (symmetry; apply Z.eqb_neq; lia).
    rewrite bind_run. unfold lift. rewrite Hv, bond_action_run. reflexivity.
  - intros Hp He. unfold BondFireplaceFan.async_set_percentage.
    rewrite (proj2 (Z.eqb_neq p 0) Hp), bind_run. unfold lift.
    rewrite (to_bond_percentage_empty_table fp p He Hp). reflexivity.
Qed.

Lemma fireplace_set_percentage_40_and_empty :
  (∃ x, x ∈ BondFireplaceFan._speeds fireplace_1
        ∧ snd (BondFireplaceFan.async_set_percentage fireplace_1 40 bond_ok []) =
            [("fp-1", Action.Action Action.SET_FP_FAN (Action.ArgInt (Z.min 100 x)))])
  ∧ BondFireplaceFan.async_set_percentage fireplace_0 40 bond_ok [] =
      (Raise IndexError, []).
Proof.
  split.
  - apply (proj1 (fireplace_set_percentage_dispatch fireplace_1 40 bond_ok []));
      [lia | vm_compute; discriminate].
  - apply (proj2 (fireplace_set_percentage_dispatch fireplace_0 40 bond_ok []));
      [lia | reflexivity].
Defined.

Lemma StronglySorted_le_lookup (l : list Z) (i j : nat) (x y : Z) :
  StronglySorted Z.le l → (i ≤ j)%nat → l !! i = Some x → l !! j = Some y → x ≤ y.
Proof.
  intros Hs. revert i j. induction Hs as [| a l Hs IH Hall]; intros i j Hij Hi Hj.
  - rewrite lookup_nil in Hi. discriminate.
  - destruct i as [| i], j as [| j]; cbn in Hi, Hj.
    + injection Hi as <-. injection Hj as <-. lia.
    + injection Hi as <-. rewrite Forall_forall in Hall.
      apply Hall. eapply list_elem_of_lookup_2, Hj.
    + lia.
    + apply (IH i j); [lia | assumption | assumption].
Qed.

(** X5.  On a fireplace fan as [__init__] builds it, the vendor value that
    [_to_bond_percentage] selects never decreases when the percentage
    grows within [[1, 100]]. *)
Theorem fireplace_vendor_value_monotone
    (device : BondDevice) (entity_id : string) (p p' : Z) :
  let fp := BondFireplaceFan.__init__ device entity_id in
  1 ≤ p → p ≤ p' → p' ≤ 100 → BondFireplaceFan._speeds fp ≠ [] →
  ∃ v v', BondFireplaceFan._to_bond_percentage fp p = Ok v
          ∧ BondFireplaceFan._to_bond_percentage fp p' = Ok v'
          ∧ v ≤ v'.
Proof.
  cbv zeta. intros H1 H2 H3 Hne.
  set (fp := BondFireplaceFan.__init__ device entity_id) in *.
  destruct (to_bond_percentage_ok fp p ltac:(lia) Hne) as (x & Hx & Hv).
  destruct (to_bond_percentage_ok fp p' ltac:(lia) Hne) as (x' & Hx' & Hv').
  exists (Z.min 100 x), (Z.min 100 x'). split; [exact Hv |]. split; [exact Hv' |].
  assert (Hsorted : StronglySorted Z.le (BondFireplaceFan._speeds fp)).
  { cbn [fp BondFireplaceFan.__init__ BondFireplaceFan._speeds]. unfold sorted.
    apply (StronglySorted_merge_sort Z.le). }
  assert (Hn : 1 ≤ Z.of_nat (length (BondFireplaceFan._speeds fp))).
  { destruct (BondFireplaceFan._speeds fp); [done | cbn [length]; lia]. }
  assert (Hstep : percentage_to_step (BondFireplaceFan._speed_range fp) p
                  ≤ percentage_to_step (BondFireplaceFan._speed_range fp) p').
  { unfold BondFireplaceFan._speed_range.
    pose proof (percentage_to_step_bounds
                  (Z.of_nat (length (BondFireplaceFan._speeds fp))) p) as Hb.
    pose proof (percentage_to_step_bounds
                  (Z.of_nat (length (BondFireplaceFan._speeds fp))) p') as Hb'.
    cbv zeta in Hb, Hb'. nia. }
  pose proof (percentage_to_step_range _ p Hn ltac:(lia)) as Hr.
  fold (BondFireplaceFan._speed_range fp) in Hr.
  assert (x ≤ x'); [| lia].
  eapply (StronglySorted_le_lookup _ _ _ _ _ Hsorted); [| exact Hx | exact Hx']. lia.
Qed.

Lemma fireplace_vendor_value_monotone_30_70 :
  ∃ v v', BondFireplaceFan._to_bond_percentage fireplace_1 30 = Ok v
          ∧ BondFireplaceFan._to_bond_percentage fireplace_1 70 = Ok v'
          ∧ v ≤ v'.
Proof.
  apply (fireplace_vendor_value_monotone (fireplace_device [100; 33; 66]) "fan.fp_1"
           30 70); [lia | lia | lia | vm_compute; discriminate].
Defined.

(** ** Snapshots *)

Lemma fan_percentage_bounds (fan : BondFan.t) (q : Z) :
  BondFan.percentage fan = Ok q → 0 ≤ q ≤ 100.
Proof.
  unfold BondFan.percentage.
  destruct (_ || _); [intros [= <-]; lia |].
  destruct (BondFan._speed fan) as [v |]; [| intros [= <-]; lia].
  destruct (as_int v) as [s | e]; cbn [rbind]; [| discriminate].
  destruct (ranged_value_to_percentage _ s) as [r | e]; cbn [rbind]; [| discriminate].
  intros [= <-]. lia.
Qed.

Lemma from_bond_percentage_bounds
    (fp : BondFireplaceFan.t) (v : option value) (p : Z) :
  BondFireplaceFan._from_bond_percentage fp v = Ok p → 0 ≤ p ≤ 100.
Proof.
  unfold BondFireplaceFan._from_bond_percentage.
  destruct (negb (truthy v)); [intros [= <-]; lia |].
  destruct v as [v |]; [| intros [= <-]; lia].
  destruct (list_index _ v) as [i | e]; cbn [rbind]; [| discriminate].
  destruct (ranged_value_to_percentage _ _) as [r | e]; cbn [rbind]; [| discriminate].
  intros [= <-]. lia.
Qed.

Lemma fireplace_apply_snapshot_speed_bounds
    (fp : BondFireplaceFan.t) (st : gmap string value) :
  (∀ z, BondFireplaceFan._speed fp = Some z → 0 ≤ z ≤ 100) →
  ∀ z, BondFireplaceFan._speed (snd (BondFireplaceFan.apply_snapshot fp st)) = Some z →
       0 ≤ z ≤ 100.
Proof.
  intros Hinv z. unfold BondFireplaceFan.apply_snapshot, BondFireplaceFan._apply_state.
  cbn [BondFireplaceFan._device with_state state BondFireplaceFan._speeds
       BondFireplaceFan._speed BondFireplaceFan.entity_id BondFireplaceFan._power].
  destruct (BondFireplaceFan._from_bond_percentage _ _) as [p | e] eqn:E; cbn.
  - intros [= <-]. exact (from_bond_percentage_bounds _ _ _ E).
  - apply Hinv.
Qed.

Lemma fireplace_after_speed_bounds
    (fp : BondFireplaceFan.t) (snapshots : list (gmap string value)) :
  (∀ z, BondFireplaceFan._speed fp = Some z → 0 ≤ z ≤ 100) →
  ∀ z, BondFireplaceFan._speed (fireplace_after fp snapshots) = Some z → 0 ≤ z ≤ 100.
Proof.
  revert fp. induction snapshots as [| st snapshots IH]; intros fp Hinv; [exact Hinv |].
  apply IH. apply fireplace_apply_snapshot_speed_bounds, Hinv.
Qed.

(** X6.  Whatever snapshots an entity has received since [__init__],
    including snapshots whose application raised, the percentage of the
    standard fan, when it returns, and the percentage of the fireplace fan
    are within [[0, 100]]. *)
Theorem percentage_within_0_100
    (device : BondDevice) (entity_id : string) (snapshots : list (gmap string value)) :
  (∀ q, BondFan.percentage
          (fan_after (BondFan.__init__ device entity_id) snapshots) = Ok q →
        0 ≤ q ≤ 100)
  ∧ 0 ≤ BondFireplaceFan.percentage
          (fireplace_after (BondFireplaceFan.__init__ device entity_id) snapshots)
      ≤ 100.
Proof.
  split; [intros q; apply fan_percentage_bounds |].
  pose proof (fireplace_after_speed_bounds
                (BondFireplaceFan.__init__ device entity_id) snapshots) as Hinv.
  unfold BondFireplaceFan.percentage.
  destruct (_ || _); cbv iota; [lia |].
  destruct (BondFireplaceFan._speed (fireplace_after _ _)) as [z |];
    cbn [default from_option id]; [| lia].
  apply Hinv; [| reflexivity]. cbn. discriminate.
Qed.

Lemma percentage_within_0_100_after_two_snapshots :
  (∀ q, BondFan.percentage
          (fan_after (BondFan.__init__ fan_device "fan.fan_1")
             [ {[ "power" := VBool true; "speed" := VInt 3 ]};
               {[ "power" := VBool true; "speed" := VInt 7 ]} ]) = Ok q →
        0 ≤ q ≤ 100)
  ∧ BondFan.percentage
      (fan_after (BondFan.__init__ fan_device "fan.fan_1")
         [ {[ "power" := VBool true; "speed" := VInt 3 ]};
           {[ "power" := VBool true; "speed" := VInt 7 ]} ]) = Ok 100.
Proof.
  split.
  - apply (proj1 (percentage_within_0_100 fan_device "fan.fan_1"
                    [ {[ "power" := VBool true; "speed" := VInt 3 ]};
                      {[ "power" := VBool true; "speed" := VInt 7 ]} ])).
  - vm_compute. reflexivity.
Defined.

Lemma fireplace_apply_snapshot_eq (fp : BondFireplaceFan.t) (st : gmap string value) :
  BondFireplaceFan.apply_snapshot fp st =
    match BondFireplaceFan._from_bond_percentage fp (st !! "fpfan_speed") with
    | Ok p =>
        (Ok tt,
         {| BondFireplaceFan._device := with_state (BondFireplaceFan._device fp) st;
            BondFireplaceFan.entity_id := BondFireplaceFan.entity_id fp;
            BondFireplaceFan._power := st !! "fpfan_power";
            BondFireplaceFan._speed := Some p;
            BondFireplaceFan._speeds := BondFireplaceFan._speeds fp |})
    | Raise e =>
        (Raise e,
         {| BondFireplaceFan._device := with_state (BondFireplaceFan._device fp) st;
            BondFireplaceFan.entity_id := BondFireplaceFan.entity_id fp;
            BondFireplaceFan._power := st !! "fpfan_power";
            BondFireplaceFan._speed := BondFireplaceFan._speed fp;
            BondFireplaceFan._speeds := BondFireplaceFan._speeds fp |})
    end.
Proof. reflexivity. Qed.

Lemma fireplace_apply_snapshot_fields (fp : BondFireplaceFan.t) (st : gmap string value) :
  let fp' := snd (BondFireplaceFan.apply_snapshot fp st) in
  BondFireplaceFan._speeds fp' = BondFireplaceFan._speeds fp
  ∧ (∀ st', with_state (BondFireplaceFan._device fp') st'
            = with_state (BondFireplaceFan._device fp) st')
  ∧ BondFireplaceFan.entity_id fp' = BondFireplaceFan.entity_id fp.
Proof.
  cbv zeta. rewrite fireplace_apply_snapshot_eq.
  destruct (BondFireplaceFan._from_bond_percentage fp _); cbn; auto.
Qed.

Lemma from_bond_percentage_ext (fp fp' : BondFireplaceFan.t) (v : option value) :
  BondFireplaceFan._speeds fp = BondFireplaceFan._speeds fp' →
  BondFireplaceFan._from_bond_percentage fp v
  = BondFireplaceFan._from_bond_percentage fp' v.
Proof.
  intros E. unfold BondFireplaceFan._from_bond_percentage,
    BondFireplaceFan._speed_range. rewrite E. reflexivity.
Qed.

(** X7.  No history is kept: when a snapshot applies without raising, the
    entity after it is the same whatever snapshot was applied before. *)
Theorem last_snapshot_wins
    (fan : BondFan.t) (fp : BondFireplaceFan.t) (st1 st2 : gmap string value) :
  (fst (BondFan.apply_snapshot fan st2) = Ok tt →
   BondFan.apply_snapshot (snd (BondFan.apply_snapshot fan st1)) st2
   = BondFan.apply_snapshot fan st2)
  ∧ (fst (BondFireplaceFan.apply_snapshot fp st2) = Ok tt →
     BondFireplaceFan.apply_snapshot (snd (BondFireplaceFan.apply_snapshot fp st1)) st2
     = BondFireplaceFan.apply_snapshot fp st2).
Proof.
  split.
  - unfold BondFan.apply_snapshot, BondFan._apply_state. cbn.
    destruct (BondFan.breeze_head st2) as [b2 | e2]; [| discriminate].
    intros _. destruct (BondFan.breeze_head st1); reflexivity.
  - rewrite (fireplace_apply_snapshot_eq fp st2).
    rewrite (fireplace_apply_snapshot_eq (snd (BondFireplaceFan.apply_snapshot fp st1)) st2).
    destruct (fireplace_apply_snapshot_fields fp st1) as (Hs & Hd & He).
    rewrite (from_bond_percentage_ext _ fp _ Hs), Hd, He, Hs.
    destruct (BondFireplaceFan._from_bond_percentage fp (st2 !! "fpfan_speed"));
      [reflexivity | discriminate].
Qed.

Lemma last_snapshot_wins_example :
  BondFan.apply_snapshot
    (snd (BondFan.apply_snapshot fan_1 {[ "power" := VBool true; "speed" := VInt 3 ]}))
    {[ "power" := VBool false ]}
  = BondFan.apply_snapshot fan_1 {[ "power" := VBool false ]}
  ∧ BondFireplaceFan.apply_snapshot
      (snd (BondFireplaceFan.apply_snapshot fireplace_1
              {[ "fpfan_power" := VBool true; "fpfan_speed" := VInt 50 ]}))
      {[ "fpfan_power" := VBool true; "fpfan_speed" := VInt 66 ]}
    = BondFireplaceFan.apply_snapshot fireplace_1
        {[ "fpfan_power" := VBool true; "fpfan_speed" := VInt 66 ]}.
Proof.
  split.
  - apply (proj1 (last_snapshot_wins fan_1 fireplace_1
                    {[ "power" := VBool true; "speed" := VInt 3 ]}
                    {[ "power" := VBool false ]})).
    reflexivity.
  - apply (proj2 (last_snapshot_wins fan_1 fireplace_1
                    {[ "fpfan_power" := VBool true; "fpfan_speed" := VInt 50 ]}
                    {[ "fpfan_power" := VBool true; "fpfan_speed" := VInt 66 ]})).
    vm_compute. reflexivity.
Defined.

Lemma py_getitem_head {A} (x : A) (l : list A) : py_getitem (x :: l) 0 = Ok x.
Proof. reflexivity. Qed.

(** X8.  What a snapshot does to the preset: without a ["breeze"] entry the
    snapshot applies and the preset is off, so [async_turn_off] then makes
    the turn-off call only; with a non-empty breeze list the preset is on
    exactly when the first element is nonzero; with an empty breeze list
    applying raises [IndexError] after the power and the speed have been
    stored, and the preset keeps its previous value. *)
Theorem preset_mode_after_snapshot
    (fan : BondFan.t) (st : gmap string value) (bond : Bond) (log : list call) :
  let r := BondFan.apply_snapshot fan st in
  let fan' := snd r in
  (st !! "breeze" = None →
     fst r = Ok tt ∧ BondFan.preset_mode fan' = None
     ∧ snd (BondFan.async_turn_off fan' bond log) =
         log ++ [(device_id (BondFan._device fan), Action.turn_off)])
  ∧ (∀ b l, st !! "breeze" = Some (VList (b :: l)) →
       fst r = Ok tt
       ∧ BondFan.preset_mode fan' = if b =? 0 then None else Some PRESET_MODE_BREEZE)
  ∧ (st !! "breeze" = Some (VList []) →
       fst r = Raise IndexError
       ∧ BondFan.preset_mode fan' = BondFan.preset_mode fan
       ∧ BondFan._power fan' = st !! "power"
       ∧ BondFan._speed fan' = st !! "speed").
Proof.
  cbv zeta. unfold BondFan.apply_snapshot, BondFan._apply_state, BondFan.breeze_head.
  cbn [BondFan._device with_state state]. split; [| split].
  - intros H. rewrite H. split; [reflexivity |]. split; [reflexivity |].
    cbn [default from_option id].
    replace (py_getitem [0; 0; 0] 0) with (Ok 0 : result Z) by reflexivity.
    cbn [snd Z.eqb]. unfold BondFan.async_turn_off.
    rewrite bool_decide_eq_false_2 by discriminate.
    rewrite bind_run. cbn [BondFan._device with_state device_id].
    change ((mret tt : M unit) bond log) with (Ok tt, log). cbv iota beta.
    rewrite bond_action_run. reflexivity.
  - intros b l H. rewrite H. cbn [default from_option id].
    rewrite py_getitem_head. split; reflexivity.
  - intros H. rewrite H. repeat split; reflexivity.
Qed.

Lemma preset_mode_after_snapshot_examples :
  BondFan.preset_mode (snd (BondFan.apply_snapshot breeze_fan {[ "power" := VBool true ]}))
  = None
  ∧ BondFan.preset_mode
      (snd (BondFan.apply_snapshot fan_1 {[ "breeze" := VList [1; 20; 30] ]}))
    = Some PRESET_MODE_BREEZE
  ∧ fst (BondFan.apply_snapshot breeze_fan {[ "breeze" := VList [] ]}) = Raise IndexError
  ∧ BondFan.preset_mode
      (snd (BondFan.apply_snapshot breeze_fan {[ "breeze" := VList [] ]}))
    = Some PRESET_MODE_BREEZE.
Proof.
  destruct (preset_mode_after_snapshot breeze_fan {[ "power" := VBool true ]} bond_ok [])
    as (H1 & _ & _).
  destruct (preset_mode_after_snapshot fan_1 {[ "breeze" := VList [1; 20; 30] ]} bond_ok [])
    as (_ & H2 & _).
  destruct (preset_mode_after_snapshot breeze_fan {[ "breeze" := VList [] ]} bond_ok [])
    as (_ & _ & H3).
  split; [apply H1; reflexivity |].
  split; [apply (H2 1 [20; 30]); reflexivity |].
  split; [apply H3; reflexivity |].
  rewrite (proj1 (proj2 (H3 eq_refl))). reflexivity.
Defined.

(** ** Preset modes *)

Lemma fan_after_fields (fan : BondFan.t) (snapshots : list (gmap string value)) :
  device_id (BondFan._device (fan_after fan snapshots)) = device_id (BondFan._device fan)
  ∧ actions (BondFan._device (fan_after fan snapshots)) = actions (BondFan._device fan)
  ∧ BondFan._attr_preset_modes (fan_after fan snapshots) = BondFan._attr_preset_modes fan.
Proof.
  revert fan. induction snapshots as [| st snapshots IH]; intros fan; [auto |].
  cbn [fan_after foldl]. fold (fan_after (snd (BondFan.apply_snapshot fan st)) snapshots).
  destruct (IH (snd (BondFan.apply_snapshot fan st))) as (-> & -> & ->).
  destruct (fan_apply_snapshot_fields fan st) as (_ & _ & _ & -> & _ & ->). auto.
Qed.

(** X9.  On an entity built by [__init__], whatever snapshots it has
    received, [async_set_preset_mode] makes its single [BREEZE_ON] call
    exactly for the modes listed in the entity's preset modes; for any other
    mode it raises [ValueError] without making a call. *)
Theorem set_preset_mode_accepts_listed_modes
    (device : BondDevice) (entity_id : string) (snapshots : list (gmap string value))
    (mode : string) (bond : Bond) (log : list call) :
  let fan := fan_after (BondFan.__init__ device entity_id) snapshots in
  let c := (device_id device, Action.Action Action.BREEZE_ON Action.ArgNone) in
  (mode ∈ BondFan._attr_preset_modes fan →
     BondFan.async_set_preset_mode fan mode bond log =
       (match bond log c with
        | None => Ok tt
        | Some (code, message) => Raise (ClientResponseError code message)
        end, log ++ [c]))
  ∧ (mode ∉ BondFan._attr_preset_modes fan →
     BondFan.async_set_preset_mode fan mode bond log =
       (Raise (ValueError ("Invalid preset mode: " +:+ mode)), log)).
Proof.
  cbv zeta.
  destruct (fan_after_fields (BondFan.__init__ device entity_id) snapshots)
    as (Hid & Hact & Hmodes).
  rewrite Hmodes. cbn [BondFan.__init__ BondFan._attr_preset_modes BondFan._device] in *.
  unfold BondFan.async_set_preset_mode.
  assert (Hhas : has_action
                   (BondFan._device
                      (fan_after (BondFan.__init__ device entity_id) snapshots))
                   Action.BREEZE_ON
                 = has_action device Action.BREEZE_ON).
  { unfold has_action. rewrite Hact. reflexivity. }
  rewrite Hhas, Hid.
  destruct (has_action device Action.BREEZE_ON); split.
  - intros Hin. apply list_elem_of_singleton in Hin as ->.
    rewrite bool_decide_eq_true_2 by reflexivity. cbn [negb orb].
    apply bond_action_run.
  - intros Hnot. rewrite bool_decide_eq_false_2; [reflexivity |].
    intros ->. apply Hnot. apply list_elem_of_singleton. reflexivity.
  - intros Hin. apply elem_of_nil in Hin. contradiction.
  - intros _. rewrite orb_true_r. reflexivity.
Qed.

Lemma set_preset_mode_breeze_and_other :
  BondFan.async_set_preset_mode breeze_fan "Breeze" bond_ok [] =
    (Ok tt, [("fan-1", Action.Action Action.BREEZE_ON Action.ArgNone)])
  ∧ BondFan.async_set_preset_mode breeze_fan "Turbo" bond_ok [] =
      (Raise (ValueError "Invalid preset mode: Turbo"), []).
Proof.
  split.
  - apply (proj1 (set_preset_mode_accepts_listed_modes fan_device "fan.fan_1"
                    [ {[ "power" := VBool true; "speed" := VInt 2;
                         "breeze" := VList [1; 50; 50] ]} ] "Breeze" bond_ok [])).
    apply (bool_decide_unpack _). vm_compute. exact I.
  - apply (proj2 (set_preset_mode_accepts_listed_modes fan_device "fan.fan_1"
                    [ {[ "power" := VBool true; "speed" := VInt 2;
                         "breeze" := VList [1; 50; 50] ]} ] "Turbo" bond_ok [])).
    apply (bool_decide_unpack _). vm_compute. exact I.
Defined.

(** ** The actuation path *)

Lemma two_calls_run (dev : string) (x y : Action.t) (bond : Bond) (log : list call) :
  (bond_action dev x ≫= λ _, bond_action dev y) bond log =
    match bond log (dev, x) with
    | Some (code, message) => (Raise (ClientResponseError code message), log ++ [(dev, x)])
    | None =>
        (match bond (log ++ [(dev, x)]) (dev, y) with
         | None => Ok tt
         | Some (code, message) => Raise (ClientResponseError code message)
         end, log ++ [(dev, x); (dev, y)])
    end.
Proof.
  rewrite bind_run, bond_action_run.
  destruct (bond log (dev, x)) as [[code message]|]; [reflexivity |].
  rewrite bond_action_run, <- app_assoc. reflexivity.
Qed.

(** Every actuation coroutine either raises without calling the hub, or
    makes one call, or makes two calls one after the other, each addressed
    to the entity's device. *)
Lemma actuation_shape (a : actuation_call) :
  let dev := actuation_device a in
  (∃ e, (∀ text, e ≠ HomeAssistantError text)
        ∧ ∀ bond log, run_actuation a bond log = (Raise e, log))
  ∨ (∃ x, ∀ bond log, run_actuation a bond log = bond_action dev x bond log)
  ∨ (∃ x y, ∀ bond log,
        run_actuation a bond log = (bond_action dev x ≫= λ _, bond_action dev y) bond log).
Proof.
  assert (Hoff : ∀ fan,
            (∃ x, ∀ bond log, BondFan.async_turn_off fan bond log
                              = bond_action (device_id (BondFan._device fan)) x bond log)
            ∨ (∃ x y, ∀ bond log,
                 BondFan.async_turn_off fan bond log
                 = (bond_action (device_id (BondFan._device fan)) x
                    ≫= λ _, bond_action (device_id (BondFan._device fan)) y) bond log)).
  { intros fan. unfold BondFan.async_turn_off. case_bool_decide.
    - right. eexists _, _. intros bond log. reflexivity.
    - left. eexists. intros bond log. reflexivity. }
  assert (Hpreset : ∀ fan mode,
            (∃ e, (∀ text, e ≠ HomeAssistantError text)
                  ∧ ∀ bond log, BondFan.async_set_preset_mode fan mode bond log
                                = (Raise e, log))
            ∨ (∃ x, ∀ bond log, BondFan.async_set_preset_mode fan mode bond log
                                = bond_action (device_id (BondFan._device fan)) x bond log)).
  { intros fan mode. unfold BondFan.async_set_preset_mode. destruct (_ || _).
    - left. eexists. split; [| intros bond log; reflexivity]. discriminate.
    - right. eexists. intros bond log. reflexivity. }
  assert (Hpct : ∀ fan p,
            (∃ x, ∀ bond log, BondFan.async_set_percentage fan p bond log
                              = bond_action (device_id (BondFan._device fan)) x bond log)
            ∨ (∃ x y, ∀ bond log,
                 BondFan.async_set_percentage fan p bond log
                 = (bond_action (device_id (BondFan._device fan)) x
                    ≫= λ _, bond_action (device_id (BondFan._device fan)) y) bond log)).
  { intros fan p. unfold BondFan.async_set_percentage. destruct (p =? 0).
    - apply Hoff.
    - left. eexists. intros bond log. reflexivity. }
  assert (Hfp : ∀ fp p,
            (∃ e, (∀ text, e ≠ HomeAssistantError text)
                  ∧ ∀ bond log, BondFireplaceFan.async_set_percentage fp p bond log
                                = (Raise e, log))
            ∨ (∃ x, ∀ bond log,
                 BondFireplaceFan.async_set_percentage fp p bond log
                 = bond_action (device_id (BondFireplaceFan._device fp)) x bond log)).
  { intros fp p. unfold BondFireplaceFan.async_set_percentage. destruct (p =? 0).
    - right. eexists. intros bond log. reflexivity.
    - destruct (BondFireplaceFan._to_bond_percentage fp p) as [v | e] eqn:E.
      + right. eexists. intros bond log. rewrite bind_run. unfold lift. reflexivity.
      + left. exists e. split.
        * rewrite (to_bond_percentage_raises _ _ _ E). discriminate.
        * intros bond log. rewrite bind_run. reflexivity. }
  cbv zeta.
  destruct a as [fan p | fan p mode | fan mode | fan | fan d | fp p | fp p | fp];
    cbn [run_actuation actuation_device].
  - right. apply Hpct.
  - destruct mode as [mode |]; cbn [BondFan.async_turn_on].
    + destruct (Hpreset fan mode) as [H | H]; [left | right; left]; exact H.
    + destruct p as [p |]; [right; apply Hpct |].
      right. left. eexists. intros bond log. reflexivity.
  - destruct (Hpreset fan mode) as [H | H]; [left | right; left]; exact H.
  - right. apply Hoff.
  - right. left. eexists. intros bond log. reflexivity.
  - destruct (Hfp fp p) as [H | H]; [left | right; left]; exact H.
  - destruct p as [p |]; cbn [BondFireplaceFan.async_turn_on].
    + destruct (Hfp fp p) as [H | H]; [left | right; left]; exact H.
    + right. left. eexists. intros bond log. reflexivity.
  - right. left. eexists. intros bond log. reflexivity.
Qed.

Lemma no_call_in_unchanged_log (log pre post : list call) (c : call) :
  log ≠ log ++ pre ++ c :: post.
Proof.
  intros H. apply (f_equal length) in H.
  rewrite !length_app in H. cbn [length] in H. lia.
Qed.

(** X10.  On the actuation path nothing is rewrapped: no coroutine that
    sets the percentage, the preset or the direction, or turns the device on
    or off, ever raises [HomeAssistantError], and a transport error raised
    by the hub on one of its calls leaves the coroutine as that very
    [ClientResponseError]. *)
Theorem actuation_transport_error_propagates
    (a : actuation_call) (bond : Bond) (log : list call) :
  (∀ text, fst (run_actuation a bond log) ≠ Raise (HomeAssistantError text))
  ∧ (∀ code message,
       transport_error_during (run_actuation a) bond log code message →
       fst (run_actuation a bond log) = Raise (ClientResponseError code message)).
Proof.
  unfold transport_error_during.
  destruct (actuation_shape a) as [(e & He & Hrun) | [(x & Hrun) | (x & y & Hrun)]];
    rewrite Hrun.
  - split; [intros text [= ->]; exact (He text eq_refl) |].
    intros code message (pre & c & post & Hlog & _). cbn [snd] in Hlog.
    destruct (no_call_in_unchanged_log _ _ _ _ Hlog).
  - rewrite bond_action_run. split.
    + intros text. cbn [fst]. destruct (bond log _) as [[c m]|]; discriminate.
    + failing_call_of_one Hb. cbn [fst]. rewrite Hb. reflexivity.
  - rewrite two_calls_run.
    destruct (bond log _) as [[c1 m1]|] eqn:E1.
    + split; [discriminate |].
      failing_call_of_one Hb. rewrite E1 in Hb. injection Hb as -> ->. reflexivity.
    + split.
      * intros text. cbn [fst]. destruct (bond (log ++ _) _) as [[c m]|]; discriminate.
      * failing_call_of_two Hb; [congruence |]. cbn [fst]. rewrite Hb. reflexivity.
Qed.

Lemma set_percentage_error_500_propagates :
  fst (BondFan.async_set_percentage fan_1 50 bond_500 []) =
    Raise (ClientResponseError 500 "Internal Server Error")
  ∧ fst (BondFan.async_turn_off breeze_fan bond_second_500 []) =
      Raise (ClientResponseError 500 "Internal Server Error").
Proof.
  split.
  - apply (proj2 (actuation_transport_error_propagates
                    (FanSetPercentage fan_1 50) bond_500 [])).
    exists [], ("fan-1", Action.set_speed 2), []. split; reflexivity.
  - apply (proj2 (actuation_transport_error_propagates
                    (FanTurnOff breeze_fan) bond_second_500 [])).
    exists [("fan-1", Action.Action Action.BREEZE_OFF Action.ArgNone)],
      ("fan-1", Action.turn_off), [].
    split; reflexivity.
Defined.

(** ** Calls made by an entity *)

Lemma calls_only_own_device_fan_speed_belief (fan : BondFan.t) (speed : Z) :
  calls_only (BondFan.async_set_speed_belief fan speed) (device_id (BondFan._device fan)).
Proof.
  intros bond log. destruct (Z.eq_dec speed 0) as [-> | Hs].
  - cbn [BondFan.async_set_speed_belief Z.eqb]. rewrite fan_power_belief_run.
    eexists. split; [reflexivity |]. split; [cbn; lia |].
    repeat constructor.
  - rewrite fan_speed_belief_run by exact Hs.
    destruct (bond log _) as [[c m]|].
    + eexists. split; [reflexivity |]. split; [cbn; lia |]. repeat constructor.
    + eexists. split; [reflexivity |]. split; [cbn; lia |]. repeat constructor.
Qed.

Lemma calls_only_own_device_fireplace_speed_belief
    (fp : BondFireplaceFan.t) (speed : Z) :
  calls_only (BondFireplaceFan.async_set_speed_belief fp speed)
    (device_id (BondFireplaceFan._device fp)).
Proof.
  intros bond log. destruct (Z.eq_dec speed 0) as [-> | Hs].
  - cbn [BondFireplaceFan.async_set_speed_belief Z.eqb].
    rewrite fireplace_power_belief_run.
    eexists. split; [reflexivity |]. split; [cbn; lia |].
    repeat constructor.
  - rewrite fireplace_speed_belief_run by exact Hs.
    destruct (bond log _) as [[c m]|];
      [| destruct (BondFireplaceFan._to_bond_percentage fp speed)];
      (eexists; split; [reflexivity |]; split; [cbn; lia |]; repeat constructor).
Qed.

(** X11.  Every coroutine of either adapter, on the actuation path and on
    the belief-state path, only appends to the hub's log of calls, appends
    at most two calls, and addresses each of them to the entity's own
    device. *)
Theorem entity_calls_only_its_device (a : actuation_call) (b : belief_call) :
  calls_only (run_actuation a) (actuation_device a)
  ∧ calls_only (run_belief b) (belief_device b).
Proof.
  split.
  - intros bond log.
    destruct (actuation_shape a) as [(e & He & Hrun) | [(x & Hrun) | (x & y & Hrun)]];
      rewrite Hrun.
    + exists []. rewrite app_nil_r. split; [reflexivity |]. split; [cbn; lia |].
      constructor.
    + rewrite bond_action_run. eexists. split; [reflexivity |].
      split; [cbn; lia |]. repeat constructor.
    + rewrite two_calls_run.
      destruct (bond log _) as [[c m]|];
        (eexists; split; [reflexivity |]; split; [cbn; lia |]; repeat constructor).
  - destruct b as [fan p | fan speed | fp p | fp speed]; cbn [run_belief belief_device].
    + intros bond log. rewrite fan_power_belief_run.
      eexists. split; [reflexivity |]. split; [cbn; lia |]. repeat constructor.
    + apply calls_only_own_device_fan_speed_belief.
    + intros bond log. rewrite fireplace_power_belief_run.
      eexists. split; [reflexivity |]. split; [cbn; lia |]. repeat constructor.
    + apply calls_only_own_device_fireplace_speed_belief.
Qed.

(** ** Direction *)

(** X12.  [async_set_direction] makes exactly one call, [set_direction]
    with the vendor's reverse value for the token ["reverse"] and the
    forward value for every other string; once a snapshot reports the value
    that was sent, [current_direction] shows ["reverse"] for ["reverse"] and
    ["forward"] for everything else, and it shows nothing while the
    snapshot has no direction. *)
Theorem direction_sent_and_shown
    (fan : BondFan.t) (direction : string) (bond : Bond) (log : list call)
    (st : gmap string value) :
  let sent :=
    if bool_decide (direction = DIRECTION_REVERSE)
    then Direction.REVERSE else Direction.FORWARD in
  let fan' := snd (BondFan.apply_snapshot fan st) in
  snd (BondFan.async_set_direction fan direction bond log) =
    log ++ [(device_id (BondFan._device fan), Action.set_direction sent)]
  ∧ (st !! "direction" = Some (VInt sent) →
     BondFan.current_direction fan' =
       Some (if bool_decide (direction = DIRECTION_REVERSE)
             then DIRECTION_REVERSE else DIRECTION_FORWARD))
  ∧ (st !! "direction" = None → BondFan.current_direction fan' = None).
Proof.
  cbv zeta. split; [| split].
  - unfold BondFan.async_set_direction. rewrite bond_action_run. reflexivity.
  - intros H. unfold BondFan.current_direction.
    destruct (fan_apply_snapshot_fields fan st) as (_ & _ & -> & _).
    rewrite H. case_bool_decide; reflexivity.
  - intros H. unfold BondFan.current_direction.
    destruct (fan_apply_snapshot_fields fan st) as (_ & _ & -> & _).
    rewrite H. reflexivity.
Qed.

Lemma direction_sent_and_shown_examples :
  BondFan.current_direction
    (snd (BondFan.apply_snapshot fan_1 {[ "direction" := VInt (-1) ]}))
  = Some "reverse"
  ∧ BondFan.current_direction
      (snd (BondFan.apply_snapshot fan_1 {[ "direction" := VInt 1 ]}))
    = Some "forward"
  ∧ BondFan.current_direction (snd (BondFan.apply_snapshot fan_1 ∅)) = None.
Proof.
  split; [| split].
  - apply (proj1 (proj2 (direction_sent_and_shown fan_1 "reverse" bond_ok []
                           {[ "direction" := VInt (-1) ]}))).
    reflexivity.
  - apply (proj1 (proj2 (direction_sent_and_shown fan_1 "backwards" bond_ok []
                           {[ "direction" := VInt 1 ]}))).
    reflexivity.
  - apply (proj2 (proj2 (direction_sent_and_shown fan_1 "forward" bond_ok [] ∅))).
    reflexivity.
Defined.

(** ** The fireplace fan: percentage shown *)

(** X13.  On a fireplace fan whose step table has no duplicates and only
    nonzero entries up to 100: when the hub reports the fan on at the
    vendor value that [async_set_percentage(p)] sent, the percentage shown
    is never below [p] and exceeds it by less than one step,
    [p <= q <= 100] and [n * (q - p) < 100] for a table of [n] steps. *)
Theorem fireplace_percentage_after_set_percentage
    (fp : BondFireplaceFan.t) (p : Z) (st : gmap string value) :
  let table := BondFireplaceFan._speeds fp in
  let n := Z.of_nat (length table) in
  1 ≤ p ≤ 100 → table ≠ [] → NoDup table →
  (∀ x, x ∈ table → x ≠ 0 ∧ x ≤ 100) →
  truthy (st !! "fpfan_power") = true →
  (∀ v, BondFireplaceFan._to_bond_percentage fp p = Ok v →
        st !! "fpfan_speed" = Some (VInt v)) →
  ∃ v q,
    snd (BondFireplaceFan.async_set_percentage fp p bond_ok []) =
      [(device_id (BondFireplaceFan._device fp),
        Action.Action Action.SET_FP_FAN (Action.ArgInt v))]
    ∧ fst (BondFireplaceFan.apply_snapshot fp st) = Ok tt
    ∧ BondFireplaceFan.percentage (snd (BondFireplaceFan.apply_snapshot fp st)) = q
    ∧ p ≤ q ≤ 100 ∧ n * (q - p) < 100.
Proof.
  cbv zeta. intros Hp Hne Hnd Hall Hpow Hst.
  destruct (to_bond_percentage_ok fp p Hp Hne) as (x & Hx & Hv).
  pose proof (list_elem_of_lookup_2 _ _ _ Hx) as Hin.
  destruct (Hall x Hin) as [Hx0 Hx100].
  replace (Z.min 100 x) with x in Hv by lia.
  specialize (Hst x Hv).
  set (n := Z.of_nat (length (BondFireplaceFan._speeds fp))) in *.
  assert (Hn : 1 ≤ n).
  { unfold n. destruct (BondFireplaceFan._speeds fp); [done | cbn [length]; lia]. }
  pose proof (percentage_to_step_range n p Hn Hp) as Hs.
  pose proof (percentage_to_step_bounds n p) as Hb. cbv zeta in Hb.
  change (percentage_to_step (BondFireplaceFan._speed_range fp) p)
    with (percentage_to_step (1, n) p) in Hx.
  set (s := percentage_to_step (1, n) p) in *.
  (* the index found for [x] is the step that was selected *)
  pose proof (list_index_from_spec (BondFireplaceFan._speeds fp) x 0) as Hspec.
  fold (list_index (BondFireplaceFan._speeds fp) (VInt x)) in Hspec.
  destruct (list_index (BondFireplaceFan._speeds fp) (VInt x)) as [i | e] eqn:Ei;
    [| destruct Hspec as (Hnot & _); contradiction].
  destruct Hspec as (k & -> & Hk & _). rewrite Z.add_0_l in Ei.
  assert (k = Z.to_nat (s - 1)) as Hks by (eapply NoDup_lookup; eassumption).
  pose proof (from_bond_percentage_found fp x k Hx0 Ei Hk) as Hfrom.
  fold n in Hfrom. replace (Z.of_nat k + 1) with s in Hfrom by lia.
  pose proof (Z.div_mod (s * 100) n ltac:(lia)) as Hdm.
  pose proof (Z.mod_pos_bound (s * 100) n ltac:(lia)) as Hm.
  set (q := (s * 100) / n) in *.
  assert (Hq : p ≤ q ≤ 100) by nia.
  replace (Z.min 100 (Z.max 0 q)) with q in Hfrom by lia.
  exists x, q. split.
  { unfold BondFireplaceFan.async_set_percentage.
    replace (p =? 0) with false by (symmetry; apply Z.eqb_neq; lia).
    rewrite bind_run. unfold lift. rewrite Hv. reflexivity. }
  rewrite fireplace_apply_snapshot_eq, Hst, Hfrom. cbn [fst snd].
  split; [reflexivity |]. split.
  - unfold BondFireplaceFan.percentage.
    cbn [BondFireplaceFan._speed BondFireplaceFan._power fmap option_fmap option_map truthy].
    rewrite Hpow. replace (q =? 0) with false by (symmetry; apply Z.eqb_neq; lia).
    reflexivity.
  - split; [exact Hq | nia].
Qed.

Lemma fireplace_percentage_after_set_percentage_40 :
  ∃ v q,
    snd (BondFireplaceFan.async_set_percentage fireplace_1 40 bond_ok []) =
      [("fp-1", Action.Action Action.SET_FP_FAN (Action.ArgInt v))]
    ∧ fst (BondFireplaceFan.apply_snapshot fireplace_1
             {[ "fpfan_power" := VBool true; "fpfan_speed" := VInt 66 ]}) = Ok tt
    ∧ BondFireplaceFan.percentage
        (snd (BondFireplaceFan.apply_snapshot fireplace_1
                {[ "fpfan_power" := VBool true; "fpfan_speed" := VInt 66 ]})) = q
    ∧ 40 ≤ q ≤ 100 ∧ 3 * (q - 40) < 100.
Proof.
  apply (fireplace_percentage_after_set_percentage fireplace_1 40
           {[ "fpfan_power" := VBool true; "fpfan_speed" := VInt 66 ]}).
  - lia.
  - vm_compute. discriminate.
  - apply (bool_decide_unpack _). vm_compute. exact I.
  - intros x Hx.
    assert (E : BondFireplaceFan._speeds fireplace_1 = [33; 66; 100])
      by (vm_compute; reflexivity).
    rewrite E in Hx.
    repeat (apply elem_of_cons in Hx as [-> | Hx]; [lia |]).
    apply elem_of_nil in Hx. contradiction.
  - reflexivity.
  - intros v Hv. vm_compute in Hv. injection Hv as <-. reflexivity.
Defined.

(** ** Errors of a fireplace snapshot *)

Lemma list_index_from_result (l : list Z) (v : value) (k : Z) :
  match list_index_from l v k with
  | Ok i => k ≤ i < k + Z.of_nat (length l)
  | Raise e => ∃ msg, e = ValueError msg
  end.
Proof.
  revert k. induction l as [| x l IH]; intros k; cbn [list_index_from].
  - eauto.
  - destruct (py_eq_int v x); [cbn [length]; lia |].
    specialize (IH (k + 1)).
    destruct (list_index_from l v (k + 1)); [cbn [length]; lia | exact IH].
Qed.

(** X14.  Applying a snapshot to the fireplace fan either succeeds or
    raises [ValueError], nothing else (the conversion never divides by an
    empty range); it succeeds with speed 0 when the snapshot's
    ["fpfan_speed"] is missing or falsy, and it succeeds for every member of
    the step table. *)
Theorem fireplace_snapshot_raises_only_value_error
    (fp : BondFireplaceFan.t) (st : gmap string value) :
  let r := BondFireplaceFan.apply_snapshot fp st in
  (fst r = Ok tt ∨ ∃ msg, fst r = Raise (ValueError msg))
  ∧ (truthy (st !! "fpfan_speed") = false →
     fst r = Ok tt ∧ BondFireplaceFan._speed (snd r) = Some 0)
  ∧ (∀ z, st !! "fpfan_speed" = Some (VInt z) → z ∈ BondFireplaceFan._speeds fp →
     fst r = Ok tt).
Proof.
  cbv zeta. rewrite fireplace_apply_snapshot_eq.
  assert (Hres : ∀ v, (∃ p, BondFireplaceFan._from_bond_percentage fp v = Ok p)
                      ∨ ∃ msg, BondFireplaceFan._from_bond_percentage fp v
                               = Raise (ValueError msg)).
  { intros v. unfold BondFireplaceFan._from_bond_percentage.
    destruct (negb (truthy v)); [eauto |].
    destruct v as [v |]; [| eauto].
    pose proof (list_index_from_result (BondFireplaceFan._speeds fp) v 0) as Hi.
    fold (list_index (BondFireplaceFan._speeds fp) v) in Hi.
    destruct (list_index (BondFireplaceFan._speeds fp) v) as [i | e]; cbn [rbind].
    - unfold BondFireplaceFan._speed_range.
      rewrite ranged_value_to_percentage_ok by lia. cbn [rbind]. eauto.
    - destruct Hi as (msg & ->). eauto. }
  split; [| split].
  - destruct (Hres (st !! "fpfan_speed")) as [(p & ->) | (msg & ->)]; cbn [fst]; eauto.
  - intros Hf. unfold BondFireplaceFan._from_bond_percentage. rewrite Hf.
    cbn [negb]. split; reflexivity.
  - intros z Hz Hin. rewrite Hz.
    destruct (Z.eq_dec z 0) as [-> | Hz0]; [reflexivity |].
    pose proof (list_index_from_spec (BondFireplaceFan._speeds fp) z 0) as Hspec.
    fold (list_index (BondFireplaceFan._speeds fp) (VInt z)) in Hspec.
    destruct (list_index (BondFireplaceFan._speeds fp) (VInt z)) as [i | e] eqn:Ei;
      [| destruct Hspec as (Hnot & _); contradiction].
    destruct Hspec as (k & -> & Hk & _). rewrite Z.add_0_l in Ei.
    rewrite (from_bond_percentage_found fp z k Hz0 Ei Hk). reflexivity.
Qed.

Lemma fireplace_snapshot_missing_speed_and_member :
  fst (BondFireplaceFan.apply_snapshot fireplace_1 {[ "fpfan_power" := VBool true ]})
  = Ok tt
  ∧ BondFireplaceFan._speed
      (snd (BondFireplaceFan.apply_snapshot fireplace_1 {[ "fpfan_power" := VBool true ]}))
    = Some 0
  ∧ fst (BondFireplaceFan.apply_snapshot fireplace_1 {[ "fpfan_speed" := VInt 100 ]})
    = Ok tt.
Proof.
  destruct (fireplace_snapshot_raises_only_value_error fireplace_1
              {[ "fpfan_power" := VBool true ]}) as (_ & H1 & _).
  destruct (fireplace_snapshot_raises_only_value_error fireplace_1
              {[ "fpfan_speed" := VInt 100 ]}) as (_ & _ & H2).
  split; [apply H1; reflexivity |]. split; [apply H1; reflexivity |].
  apply (H2 100); [reflexivity |].
  apply (bool_decide_unpack _). vm_compute. exact I.
Defined.

(** ** Clamping of the standard fan's percentage *)

(** X15.  On a fan that is on, with a range of at least one speed, a
    reported speed at or above the top of the range shows 100 and a
    negative reported speed shows 0. *)
Theorem fan_percentage_clamped (fan : BondFan.t) (s : Z) :
  let n := snd (BondFan._speed_range fan) in
  1 ≤ n → truthy (BondFan._power fan) = true → BondFan._speed fan = Some (VInt s) →
  (n ≤ s → BondFan.percentage fan = Ok 100)
  ∧ (s < 0 → BondFan.percentage fan = Ok 0).
Proof.
  cbv zeta. intros Hn Hp Hs.
  set (n := snd (BondFan._speed_range fan)) in *.
  pose proof (Z.div_mod (s * 100) n ltac:(lia)) as Hdm.
  pose proof (Z.mod_pos_bound (s * 100) n ltac:(lia)) as Hm.
  split; intros Hr.
  - rewrite (fan_percentage_on fan s Hp Hs ltac:(lia) Hn). fold n.
    f_equal. assert (100 ≤ (s * 100) / n) by nia. lia.
  - rewrite (fan_percentage_on fan s Hp Hs ltac:(lia) Hn). fold n.
    f_equal. assert ((s * 100) / n < 0) by nia. lia.
Qed.

Lemma fan_percentage_clamped_7_of_3 :
  BondFan.percentage
    (snd (BondFan.apply_snapshot fan_1 {[ "power" := VBool true; "speed" := VInt 7 ]}))
  = Ok 100
  ∧ BondFan.percentage
      (snd (BondFan.apply_snapshot fan_1 {[ "power" := VBool true; "speed" := VInt (-1) ]}))
    = Ok 0.
Proof.
  split.
  - destruct (fan_percentage_clamped
                (snd (BondFan.apply_snapshot fan_1
                        {[ "power" := VBool true; "speed" := VInt 7 ]})) 7)
      as [H _]; [vm_compute; discriminate | reflexivity | reflexivity |].
    apply H. vm_compute. discriminate.
  - destruct (fan_percentage_clamped
                (snd (BondFan.apply_snapshot fan_1
                        {[ "power" := VBool true; "speed" := VInt (-1) ]})) (-1))
      as [_ H]; [vm_compute; discriminate | reflexivity | reflexivity |].
    apply H. lia.
Defined.
